(** * BSG Magazine product tracker: a shallow embedding of [bsg.py]

    The development follows the layout of the program: first the pieces of
    the Python runtime and of the libraries the program calls ([str]
    methods, the one regular expression, [urllib.parse], a small document
    tree with the CSS selectors the scraper uses), then the classes of
    [bsg.py] in source order ([TelegramNotifier], [ProductStorage],
    [BSGScraper]), then the properties.

    Conventions.
    - A Python [str] is a [string]: the UTF-8 bytes of the text.  Character
      classes ([isdigit], [isspace], [lower], [\d], the digits of [int])
      are the ASCII ones; a byte above 127 is an ordinary character for
      them.  [len] counts code points (bytes that are not continuation
      bytes).
    - A Python exception is a value of [exn]; code that can raise lives in
      the error monad [exc].  The arbitrary-precision [int] is [Z]; the
      interpreter's cap on the digits of a conversion is left out.
    - What the libraries decide by tables this development does not carry
      (the validity of a bracketed or non-ASCII host) is a parameter,
      [UrlChecks]; every general statement holds for every verdict.
    - Console output and [time.sleep] are not modelled; the network and the
      clock are functions given to the code that uses them.              *)

From Stdlib Require Import ZArith Lia Ascii String List Bool.
From Stdlib Require Import DecimalString DecimalN DecimalFacts.
From stdpp Require Import base option list strings gmap.

(* ===================================================================== *)
(** * Exceptions                                                          *)
(* ===================================================================== *)

Inductive exn : Type :=
| ValueError
| KeyError
| IndexError
| RequestException.

Inductive exc (A : Type) : Type :=
| Return (a : A)
| Raise (e : exn).
Arguments Return {A} a.
Arguments Raise {A} e.

Global Instance exc_ret : MRet exc := fun _ a => Return a.

Global Instance exc_bind : MBind exc := fun _ _ k m =>
  match m with
  | Return a => k a
  | Raise e => Raise e
  end.

Global Instance exc_fmap : FMap exc := fun _ _ f m =>
  match m with
  | Return a => Return (f a)
  | Raise e => Raise e
  end.

(* ===================================================================== *)
(** * Python [str] and [int]                                              *)
(* ===================================================================== *)

Module Py.

Definition ord (c : ascii) : N := N_of_ascii c.

Definition nl : string := String "010"%char "".

(** [c.isdigit()] on the ASCII range. *)
Definition isdigit_char (c : ascii) : bool :=
  ((48 <=? ord c) && (ord c <=? 57))%N.

(** [c.isspace()] on the ASCII range: TAB, LF, VT, FF, CR, FS, GS, RS, US
    and the space. *)
Definition isspace_char (c : ascii) : bool :=
  (((9 <=? ord c) && (ord c <=? 13)) || ((28 <=? ord c) && (ord c <=? 32)))%N.

Definition isalpha_char (c : ascii) : bool :=
  (((65 <=? ord c) && (ord c <=? 90)) || ((97 <=? ord c) && (ord c <=? 122)))%N.

Definition lower_char (c : ascii) : ascii :=
  if ((65 <=? ord c) && (ord c <=? 90))%N then ascii_of_N (ord c + 32) else c.

Fixpoint forallb_str (p : ascii -> bool) (s : string) : bool :=
  match s with
  | "" => true
  | String c s' => p c && forallb_str p s'
  end.

Fixpoint map_str (f : ascii -> ascii) (s : string) : string :=
  match s with
  | "" => ""
  | String c s' => String (f c) (map_str f s')
  end.

Fixpoint filter_str (p : ascii -> bool) (s : string) : string :=
  match s with
  | "" => ""
  | String c s' => if p c then String c (filter_str p s') else filter_str p s'
  end.

Definition is_empty (s : string) : bool :=
  match s with "" => true | _ => false end.

(** [s.isdigit()]: false on the empty string. *)
Definition isdigit (s : string) : bool :=
  negb (is_empty s) && forallb_str isdigit_char s.

(** [s.lower()]. *)
Definition lower (s : string) : string := map_str lower_char s.

(** [c in chars]. *)
Fixpoint mem_char (c : ascii) (chars : string) : bool :=
  match chars with
  | "" => false
  | String d chars' => Ascii.eqb c d || mem_char c chars'
  end.

(** [s.lstrip(chars)], [s.rstrip(chars)] and [s.strip(chars)], the set of
    characters given as a predicate. *)
Fixpoint lstrip (p : ascii -> bool) (s : string) : string :=
  match s with
  | "" => ""
  | String c s' => if p c then lstrip p s' else s
  end.

Fixpoint rstrip (p : ascii -> bool) (s : string) : string :=
  match s with
  | "" => ""
  | String c s' =>
      match rstrip p s' with
      | "" => if p c then "" else String c ""
      | r => String c r
      end
  end.

Definition strip (p : ascii -> bool) (s : string) : string :=
  rstrip p (lstrip p s).

Definition is_slash (c : ascii) : bool := Ascii.eqb c "/".

(** [s.split(sep)] for a one-character separator: never the empty list. *)
Fixpoint split (sep : ascii) (s : string) : list string :=
  match s with
  | "" => [""]
  | String c s' =>
      if Ascii.eqb c sep then "" :: split sep s'
      else match split sep s' with
           | h :: t => String c h :: t
           | [] => [String c ""]
           end
  end.

(** [s.split(sep, 1)] as the pair (head, the rest after the first [sep]);
    [None] when [sep] does not occur. *)
Fixpoint partition (sep : ascii) (s : string) : option (string * string) :=
  match s with
  | "" => None
  | String c s' =>
      if Ascii.eqb c sep then Some ("", s')
      else match partition sep s' with
           | Some (h, t) => Some (String c h, t)
           | None => None
           end
  end.

(** [sep.join(l)]. *)
Fixpoint join (sep : string) (l : list string) : string :=
  match l with
  | [] => ""
  | [x] => x
  | x :: l' => x +:+ sep +:+ join sep l'
  end.

(** [s.startswith(p)]. *)
Fixpoint startswith (p s : string) : bool :=
  match p, s with
  | "", _ => true
  | String a p', String b s' => Ascii.eqb a b && startswith p' s'
  | _, _ => false
  end.

(** [sub in s]. *)
Fixpoint contains (sub s : string) : bool :=
  startswith sub s ||
  match s with
  | "" => false
  | String _ s' => contains sub s'
  end.

(** [l[-1]] of a list. *)
Definition last_item {A} (l : list A) : exc A :=
  match last l with
  | Some x => Return x
  | None => Raise IndexError
  end.

(** [len(s)]: the number of code points of the text. *)
Definition is_continuation (c : ascii) : bool :=
  ((128 <=? ord c) && (ord c <=? 191))%N.

Fixpoint len (s : string) : nat :=
  match s with
  | "" => 0
  | String c s' => if is_continuation c then len s' else S (len s')
  end.

(** [str(n)] for an integer. *)
Definition str_of_N (n : N) : string := NilEmpty.string_of_uint (N.to_uint n).

Definition str (z : Z) : string :=
  match z with
  | Zneg p => String "-" (str_of_N (Npos p))
  | _ => str_of_N (Z.to_N z)
  end.

(** The value of a non-empty run of decimal digits. *)
Definition int_of_digits (s : string) : option N :=
  if isdigit s then N.of_uint <$> NilEmpty.uint_of_string s else None.

(** The digit groups of an integer literal: [1_000] is allowed, a leading,
    trailing or doubled underscore is not. *)
Definition is_underscore (c : ascii) : bool := Ascii.eqb c "_".

Definition int_of_literal (s : string) : option N :=
  if forallb (fun g => isdigit g) (split "_" s)
  then int_of_digits (filter_str (fun c => negb (is_underscore c)) s)
  else None.

(** [int(s)]: surrounding white space, an optional sign, decimal digits. *)
Definition int (s : string) : exc Z :=
  let body := strip isspace_char s in
  let signed :=
    match body with
    | String "-" r => (true, r)
    | String "+" r => (false, r)
    | _ => (false, body)
    end in
  match int_of_literal (snd signed) with
  | Some n => Return (if fst signed then (- Z.of_N n)%Z else Z.of_N n)
  | None => Raise ValueError
  end.

End Py.

(* ===================================================================== *)
(** * The regular expression [/p(\d+)/?$]                                 *)
(* ===================================================================== *)

Module Re.

(** The longest prefix of characters satisfying [p], and the rest. *)
Fixpoint span (p : ascii -> bool) (s : string) : string * string :=
  match s with
  | "" => ("", "")
  | String c s' =>
      if p c then let '(a, b) := span p s' in (String c a, b)
      else ("", s)
  end.

(** [$]: the end of the text, or the place before a final newline. *)
Definition at_end (s : string) : bool :=
  String.eqb s "" || String.eqb s Py.nl.

(** A match of [/p(\d+)/?$] anchored at the start of [s]: the digits of the
    group, the text matched by [/?], and what follows the match (nothing or
    the final newline).  [\d+] and [/?] are greedy; giving a digit or the
    slash back never lets [$] match, so there is one candidate only. *)
Definition match_here (s : string) : option (string * string * string) :=
  match s with
  | String "/" (String "p" r) =>
      let '(ds, rest) := span Py.isdigit_char r in
      if Py.is_empty ds then None
      else match rest with
           | String "/" rest' =>
               if at_end rest' then Some (ds, "/", rest') else None
           | _ => if at_end rest then Some (ds, "", rest) else None
           end
  | _ => None
  end.

Record Match := {
  m_before : string;   (** the text before the match *)
  m_digits : string;   (** [group(1)] *)
  m_slash : string;    (** what [/?] matched *)
  m_after : string     (** the text after the match *)
}.

(** [re.search(r'/p(\d+)/?$', s)]: the leftmost match. *)
Fixpoint search (s : string) : option Match :=
  match match_here s with
  | Some (ds, sl, rest) =>
      Some {| m_before := ""; m_digits := ds; m_slash := sl; m_after := rest |}
  | None =>
      match s with
      | "" => None
      | String c s' =>
          match search s' with
          | Some m => Some {| m_before := String c (m_before m);
                              m_digits := m_digits m;
                              m_slash := m_slash m;
                              m_after := m_after m |}
          | None => None
          end
      end
  end.

(** [re.sub(r'/p\d+/?$', repl, s)]: a match ends at the end of the text, so
    there is at most one to replace. *)
Definition sub (repl s : string) : string :=
  match search s with
  | Some m => m_before m +:+ repl +:+ m_after m
  | None => s
  end.

End Re.

(* ===================================================================== *)
(** * [urllib.parse]                                                      *)
(* ===================================================================== *)

(** What [urlsplit] checks of a network location beyond the balance of its
    brackets: the bracketed host literal (through [ipaddress]) and the NFKC
    form of a non-ASCII host.  The checks are the library's; the model takes
    their verdict as given. *)
Class UrlChecks := netloc_ok : string -> bool.

Module Urllib.

Record SplitResult := {
  s_scheme : string; s_netloc : string; s_path : string;
  s_query : string; s_fragment : string
}.

Record ParseResult := {
  scheme : string; netloc : string; path : string;
  params : string; query : string; fragment : string
}.

Definition uses_relative : list string :=
  [""; "ftp"; "http"; "gopher"; "nntp"; "imap"; "wais"; "file"; "https";
   "shttp"; "mms"; "prospero"; "rtsp"; "rtspu"; "sftp"; "svn"; "svn+ssh";
   "ws"; "wss"].

Definition uses_netloc : list string :=
  [""; "ftp"; "http"; "gopher"; "nntp"; "telnet"; "imap"; "wais"; "file";
   "mms"; "https"; "shttp"; "snews"; "prospero"; "rtsp"; "rtspu"; "rsync";
   "svn"; "svn+ssh"; "sftp"; "nfs"; "git"; "git+ssh"; "ws"; "wss"].

Definition uses_params : list string :=
  [""; "ftp"; "hdl"; "prospero"; "http"; "imap"; "https"; "shttp"; "rtsp";
   "rtspu"; "sip"; "sips"; "mms"; "sftp"; "tel"].

Definition mem (s : string) (l : list string) : bool :=
  existsb (String.eqb s) l.

Definition is_scheme_char (c : ascii) : bool :=
  Py.isalpha_char c || Py.isdigit_char c || Py.mem_char c "+-.".

Definition is_c0_or_space (c : ascii) : bool := (Py.ord c <=? 32)%N.

Definition is_unsafe (c : ascii) : bool :=
  Ascii.eqb c "009" || Ascii.eqb c "013" || Ascii.eqb c "010".

Definition is_netloc_delim (c : ascii) : bool := Py.mem_char c "/?#".

(** The scheme of [url] and the text after its colon, when the text before
    the first colon is a scheme name. *)
Definition split_scheme (url : string) : option (string * string) :=
  match Py.partition ":" url with
  | Some (String c0 _ as head, rest) =>
      if Py.isalpha_char c0 && Py.forallb_str is_scheme_char head
      then Some (Py.lower head, rest)
      else None
  | _ => None
  end.

Section urlsplit.
Context `{UrlChecks}.

(** [urlsplit(url, scheme)]. *)
Definition urlsplit (url default_scheme : string) : exc SplitResult :=
  let url := Py.lstrip is_c0_or_space url in
  let default_scheme := Py.strip is_c0_or_space default_scheme in
  let url := Py.filter_str (fun c => negb (is_unsafe c)) url in
  let default_scheme :=
    Py.filter_str (fun c => negb (is_unsafe c)) default_scheme in
  let '(scheme, url) :=
    match split_scheme url with
    | Some (sch, rest) => (sch, rest)
    | None => (default_scheme, url)
    end in
  '(netloc, url) ←
    match url with
    | String "/" (String "/" r) =>
        let '(netloc, rest) := Re.span (fun c => negb (is_netloc_delim c)) r in
        if xorb (Py.mem_char "[" netloc) (Py.mem_char "]" netloc)
        then Raise ValueError
        else if netloc_ok netloc then Return (netloc, rest)
        else Raise ValueError
    | _ => Return ("", url)
    end;
  let '(url, fragment) :=
    match Py.partition "#" url with
    | Some (u, f) => (u, f)
    | None => (url, "")
    end in
  let '(url, query) :=
    match Py.partition "?" url with
    | Some (u, q) => (u, q)
    | None => (url, "")
    end in
  Return {| s_scheme := scheme; s_netloc := netloc; s_path := url;
            s_query := query; s_fragment := fragment |}.

(** The text up to and with the last [sep], and the text after it. *)
Fixpoint split_last (sep : ascii) (s : string) : string * string :=
  match s with
  | "" => ("", "")
  | String c s' =>
      let '(d, l) := split_last sep s' in
      if negb (Py.is_empty d) then (String c d, l)
      else if Ascii.eqb c sep then (String c "", s')
      else ("", String c l)
  end.

Definition _splitparams (url : string) : string * string :=
  let '(dir, last) := split_last "/" url in
  match Py.partition ";" last with
  | Some (a, b) => (dir +:+ a, b)
  | None => (url, "")
  end.

(** [urlparse(url, scheme)]. *)
Definition urlparse (url default_scheme : string) : exc ParseResult :=
  r ← urlsplit url default_scheme;
  let '(url, params) :=
    if mem (s_scheme r) uses_params && Py.mem_char ";" (s_path r)
    then _splitparams (s_path r)
    else (s_path r, "") in
  Return {| scheme := s_scheme r; netloc := s_netloc r; path := url;
            params := params; query := s_query r;
            fragment := s_fragment r |}.

End urlsplit.

Definition urlunsplit (scheme netloc url query fragment : string) : string :=
  let url :=
    if negb (Py.is_empty netloc) ||
       (negb (Py.is_empty scheme) && mem scheme uses_netloc &&
        negb (Py.startswith "//" url))
    then
      let url :=
        if negb (Py.is_empty url) && negb (Py.startswith "/" url)
        then "/" +:+ url else url in
      "//" +:+ netloc +:+ url
    else url in
  let url := if negb (Py.is_empty scheme) then scheme +:+ ":" +:+ url else url in
  let url := if negb (Py.is_empty query) then url +:+ "?" +:+ query else url in
  let url :=
    if negb (Py.is_empty fragment) then url +:+ "#" +:+ fragment else url in
  url.

Definition urlunparse (scheme netloc url params query fragment : string)
  : string :=
  let url := if negb (Py.is_empty params) then url +:+ ";" +:+ params else url in
  urlunsplit scheme netloc url query fragment.

Definition nonempty (s : string) : bool := negb (Py.is_empty s).

(** [segments[1:-1] = filter(None, segments[1:-1])]. *)
Definition filter_middle (segments : list string) : list string :=
  match segments with
  | [] => []
  | first :: rest =>
      first :: filter (fun s => nonempty s = true) (removelast rest)
            ++ option_list (last rest)
  end.

(** The loop over [segments] of [urljoin]; the stack is kept reversed. *)
Definition resolve_step (resolved : list string) (seg : string) : list string :=
  if String.eqb seg ".." then tail resolved
  else if String.eqb seg "." then resolved
  else seg :: resolved.

Definition resolve_path (segments : list string) : list string :=
  let resolved := rev (fold_left resolve_step segments []) in
  match last segments with
  | Some seg =>
      if String.eqb seg "." || String.eqb seg ".." then resolved ++ [""]
      else resolved
  | None => resolved
  end.

Section urljoin.
Context `{UrlChecks}.

(** [urljoin(base, url)]. *)
Definition urljoin (base url : string) : exc string :=
  if Py.is_empty base then Return url
  else if Py.is_empty url then Return base
  else
    b ← urlparse base "";
    u ← urlparse url (scheme b);
    if negb (String.eqb (scheme u) (scheme b)) ||
       negb (mem (scheme u) uses_relative)
    then Return url
    else if mem (scheme u) uses_netloc && nonempty (netloc u)
    then Return (urlunparse (scheme u) (netloc u) (path u) (params u)
                   (query u) (fragment u))
    else
      let netloc' := if mem (scheme u) uses_netloc then netloc b else netloc u in
      if Py.is_empty (path u) && Py.is_empty (params u)
      then
        let query' := if Py.is_empty (query u) then query b else query u in
        Return (urlunparse (scheme u) netloc' (path b) (params b) query'
                  (fragment u))
      else
        let base_parts := Py.split "/" (path b) in
        let base_parts :=
          match last base_parts with
          | Some "" => base_parts
          | _ => removelast base_parts
          end in
        let segments :=
          if Py.startswith "/" (path u) then Py.split "/" (path u)
          else filter_middle (base_parts ++ Py.split "/" (path u)) in
        let resolved_path := resolve_path segments in
        let joined := Py.join "/" resolved_path in
        Return (urlunparse (scheme u) netloc'
                  (if Py.is_empty joined then "/" else joined)
                  (params u) (query u) (fragment u)).

End urljoin.

(** ** Query strings *)

Definition hex_val (c : ascii) : option N :=
  let n := Py.ord c in
  if ((48 <=? n) && (n <=? 57))%N then Some (n - 48)%N
  else if ((65 <=? n) && (n <=? 70))%N then Some (n - 55)%N
  else if ((97 <=? n) && (n <=? 102))%N then Some (n - 87)%N
  else None.

(** [unquote(s)]: each [%XX] becomes the byte [XX].  (The library then
    reads the bytes as UTF-8 and puts U+FFFD where they are not; the model
    keeps the bytes.) *)
Fixpoint unquote (s : string) : string :=
  match s with
  | "" => ""
  | String c s' =>
      if Ascii.eqb c "%" then
        match s' with
        | String a (String b r) =>
            match hex_val a, hex_val b with
            | Some x, Some y => String (ascii_of_N (16 * x + y)) (unquote r)
            | _, _ => String c (unquote s')
            end
        | _ => String c (unquote s')
        end
      else String c (unquote s')
  end.

Definition plus_to_space (s : string) : string :=
  Py.map_str (fun c => if Ascii.eqb c "+" then " "%char else c) s.

(** [parse_qsl(qs)] with the defaults: fields without [=] and fields with a
    blank value are dropped. *)
Definition parse_field (name_value : string) : option (string * string) :=
  match Py.partition "=" name_value with
  | Some (n, v) =>
      if Py.is_empty v then None
      else Some (unquote (plus_to_space n), unquote (plus_to_space v))
  | None => None
  end.

Definition parse_qsl (qs : string) : list (string * string) :=
  if Py.is_empty qs then []
  else omap parse_field (Py.split "&" qs).

(** The dictionary of [parse_qs]: keys in the order of their first
    occurrence, each with the list of its values. *)
Definition dict := list (string * list string).

Fixpoint dict_get (d : dict) (k : string) : option (list string) :=
  match d with
  | [] => None
  | (k', v) :: d' => if String.eqb k k' then Some v else dict_get d' k
  end.

Fixpoint dict_append (d : dict) (k v : string) : dict :=
  match d with
  | [] => [(k, [v])]
  | (k', vs) :: d' =>
      if String.eqb k k' then (k', vs ++ [v]) :: d'
      else (k', vs) :: dict_append d' k v
  end.

Definition parse_qs (qs : string) : dict :=
  fold_left (fun d '(name, value) => dict_append d name value)
    (parse_qsl qs) [].

(** [d[k][0]]. *)
Definition first_value (d : dict) (k : string) : exc string :=
  match dict_get d k with
  | Some (v :: _) => Return v
  | Some [] => Raise IndexError
  | None => Raise KeyError
  end.

End Urllib.

(* ===================================================================== *)
(** * The document tree and its selectors ([bs4], [soupsieve])            *)
(* ===================================================================== *)

Module Bs4.

(** A parsed document: elements with their attributes (the dictionary the
    parser built, as an association list) and contents, and text.  The
    [BeautifulSoup] object is the [Tag] at the root. *)
#[warnings="-register-all"]
Inductive PageElement : Type :=
| NavigableString (text : string)
| Tag (name : string) (attrs : list (string * string))
      (contents : list PageElement).

Definition attrs_of (el : PageElement) : list (string * string) :=
  match el with
  | Tag _ a _ => a
  | NavigableString _ => []
  end.

Definition name_of (el : PageElement) : string :=
  match el with
  | Tag n _ _ => n
  | NavigableString _ => ""
  end.

Definition is_tag (el : PageElement) : bool :=
  match el with
  | Tag _ _ _ => true
  | NavigableString _ => false
  end.

Fixpoint assoc (k : string) (l : list (string * string)) : option string :=
  match l with
  | [] => None
  | (k', v) :: l' => if String.eqb k k' then Some v else assoc k l'
  end.

(** [el.get(key)] and [el[key]]. *)
Definition get (el : PageElement) (key : string) : option string :=
  assoc key (attrs_of el).

Definition getitem (el : PageElement) (key : string) : exc string :=
  match get el key with
  | Some v => Return v
  | None => Raise KeyError
  end.

(** The words of an attribute value: the parser keeps [class] (and, on an
    anchor, [rel]) as the list of its white-space separated words. *)
Fixpoint words_go (cur : string) (s : string) : list string :=
  match s with
  | "" => if Py.is_empty cur then [] else [String.rev cur]
  | String c s' =>
      if Py.isspace_char c
      then (if Py.is_empty cur then [] else [String.rev cur]) ++ words_go "" s'
      else words_go (String c cur) s'
  end.

Definition words (s : string) : list string := words_go "" s.

Definition is_multi_valued (el : PageElement) (key : string) : bool :=
  String.eqb key "class" ||
  (String.eqb key "rel" && String.eqb (name_of el) "a").

(** The text an attribute selector compares with. *)
Definition attr_text (el : PageElement) (key : string) : option string :=
  match get el key with
  | Some v => Some (if is_multi_valued el key then Py.join " " (words v) else v)
  | None => None
  end.

Definition get_classes (el : PageElement) : list string :=
  match get el "class" with
  | Some v => words v
  | None => []
  end.

(** The descendants of an element in document order, each with its
    ancestors (the nearest first). *)
Fixpoint walk (anc : list PageElement) (el : PageElement)
  : list (list PageElement * PageElement) :=
  match el with
  | NavigableString _ => []
  | Tag _ _ cs =>
      flat_map (fun c => (el :: anc, c) :: walk (el :: anc) c) cs
  end.

Definition descendants (el : PageElement) : list PageElement :=
  (walk [] el).*2.

(** ** Selectors *)

Inductive simple : Type :=
| SType (name : string)          (** [a] *)
| SClass (c : string)            (** [.price] *)
| SAttr (key : string)           (** [[href]] *)
| SAttrEq (key v : string)       (** [[rel="next"]] *)
| SAttrSub (key v : string).     (** [[class*="product"]] *)

(** A compound selector such as [article.product]. *)
Definition compound := list simple.

(** [subject] alone, or [ancestor subject] with the descendant
    combinator. *)
Record complex := {
  ancestor : option compound;
  subject : compound
}.

(** A comma-separated selector list. *)
Definition selector := list complex.

Definition matches_simple (el : PageElement) (s : simple) : bool :=
  match s with
  | SType n => String.eqb (name_of el) n
  | SClass c => Urllib.mem c (get_classes el)
  | SAttr k => bool_decide (is_Some (get el k))
  | SAttrEq k v =>
      match attr_text el k with
      | Some t => String.eqb t v
      | None => false
      end
  | SAttrSub k v =>
      match attr_text el k with
      | Some t => negb (Py.is_empty v) && Py.contains v t
      | None => false
      end
  end.

Definition matches_compound (el : PageElement) (c : compound) : bool :=
  is_tag el && forallb (matches_simple el) c.

Definition matches_complex (anc : list PageElement) (el : PageElement)
  (c : complex) : bool :=
  matches_compound el (subject c) &&
  match ancestor c with
  | Some a => existsb (fun e => matches_compound e a) anc
  | None => true
  end.

Definition matches (sel : selector) (x : list PageElement * PageElement)
  : bool :=
  existsb (matches_complex x.1 x.2) sel.

(** [el.select(sel)]: the matching descendants in document order. *)
Definition select (el : PageElement) (sel : selector) : list PageElement :=
  (filter (fun x => matches sel x = true) (walk [] el)).*2.

(** [el.select_one(sel)]. *)
Definition select_one (el : PageElement) (sel : selector)
  : option PageElement :=
  head (select el sel).

(** [el.find(name, href=True)]: the first descendant with that name which
    has the attribute. *)
Definition find_with_attr (el : PageElement) (name key : string)
  : option PageElement :=
  head (filter (fun e => matches_compound e [SType name; SAttr key] = true)
          (descendants el)).

(** [el.get_text(strip=True)]: the stripped, non-empty texts below [el],
    joined. *)
Definition text_of (el : PageElement) : option string :=
  match el with
  | NavigableString s =>
      let t := Py.strip Py.isspace_char s in
      if Py.is_empty t then None else Some t
  | Tag _ _ _ => None
  end.

Definition get_text_strip (el : PageElement) : string :=
  Py.join "" (omap text_of (descendants el)).

(** A complex selector without combinator, and one under an ancestor. *)
Definition one (c : compound) : complex :=
  {| ancestor := None; subject := c |}.

Definition under (a c : compound) : complex :=
  {| ancestor := Some a; subject := c |}.

End Bs4.

(* ===================================================================== *)
(** * [bsg.py]                                                            *)
(* ===================================================================== *)

Module Config.

Definition BASE_URL : string := "https://bsgmag.ro/catalog/produse-recente".

End Config.

(** The dictionary [extract_products] builds for one product. *)
Record Product := {
  id : string;
  name : string;
  price : string;
  url : string;
  image_url : option string
}.

Global Instance Product_eq_dec : EqDecision Product.
Proof. solve_decision. Defined.

(** ** [TelegramNotifier] *)

Module TelegramNotifier.

Section notifier.

(** The network: whether the [k]-th request of the run is delivered.  The
    state of the notifier is the list of the texts it has posted. *)
Variable delivered : nat -> bool.

Definition State := list string.

(** [send_message]: posts [text]; a failed request is caught and reported
    as [False]. *)
Definition send_message (text : string) (st : State) : bool * State :=
  (delivered (length st), st ++ [text]).

Definition format_product (i : nat) (product : Product) : string :=
  "<b>" +:+ Py.str (Z.of_nat i) +:+ ". " +:+ name product +:+ "</b>" +:+ Py.nl
  +:+ "💰 Preț: " +:+ price product +:+ Py.nl
  +:+ "🔗 <a href='" +:+ url product +:+ "'>Vezi produsul</a>" +:+ Py.nl +:+ Py.nl.

(** The loop [for i, product in enumerate(products, 1)], [i] starting at
    [start]. *)
Fixpoint format_products (start : nat) (products : list Product) : string :=
  match products with
  | [] => ""
  | product :: rest =>
      format_product start product +:+ format_products (S start) rest
  end.

Definition _format_batch_message (products : list Product) : string :=
  "🎉 <b>Produse noi pe BSG Magazine!</b>" +:+ Py.nl +:+ Py.nl
  +:+ format_products 1 products.

Definition format_message (products : list Product) : string :=
  (if Nat.eqb (length products) 1
   then "🎉 <b>Produs nou pe BSG Magazine!</b>" +:+ Py.nl +:+ Py.nl
   else "🎉 <b>" +:+ Py.str (Z.of_nat (length products))
        +:+ " Produse noi pe BSG Magazine!</b>" +:+ Py.nl +:+ Py.nl)
  +:+ format_products 1 products.

(** [range(0, n, 5)]. *)
Definition range_by_5 (n : nat) : list nat :=
  map (fun k => 5 * k) (seq 0 ((n + 4) / 5)).

(** [products[i:i+5]]. *)
Definition slice5 (products : list Product) (i : nat) : list Product :=
  take 5 (drop i products).

(** The loop that sends the batches; the result of each [send_message] is
    dropped. *)
Fixpoint send_batches (batches : list (list Product)) (st : State) : State :=
  match batches with
  | [] => st
  | batch :: rest =>
      let batch_message := _format_batch_message batch in
      let '(_, st) := send_message batch_message st in
      send_batches rest st
  end.

Definition send_product_notification (products : list Product) (st : State)
  : bool * State :=
  match products with
  | [] => (true, st)
  | _ =>
      let message := format_message products in
      if 4000 <? Py.len message then
        let st :=
          send_batches (map (slice5 products) (range_by_5 (length products)))
            st in
        (true, st)
      else send_message message st
  end.

End notifier.

End TelegramNotifier.

(** ** [ProductStorage] *)

(** A stored record: the product's entries and [first_seen]. *)
Record Stored := {
  fields : Product;
  first_seen : string
}.

Module ProductStorage.

Section storage.

(** The clock: [now k] is the ISO text of the [k]-th reading of
    [datetime.now()].  The state of the world is the number of readings
    made. *)
Variable now : nat -> string.

Fixpoint add_products (products : list Product)
  (self_products : gmap string Stored) (clock : nat)
  : gmap string Stored * nat :=
  match products with
  | [] => (self_products, clock)
  | product :: rest =>
      let product_id := id product in
      match self_products !! product_id with
      | None =>
          add_products rest
            (<[product_id := {| fields := product; first_seen := now clock |}]>
               self_products)
            (S clock)
      | Some _ => add_products rest self_products clock
      end
  end.

Definition get_known_ids (self_products : gmap string Stored) : gset string :=
  dom self_products.

End storage.

End ProductStorage.

(** ** [BSGScraper] *)

Module BSGScraper.

Import Bs4.

(** ['.product-item, .product, article.product, .item-product'] *)
Definition SEL_PRODUCTS : selector :=
  [one [SClass "product-item"]; one [SClass "product"];
   one [SType "article"; SClass "product"]; one [SClass "item-product"]].

(** ['[class*="product"]'] *)
Definition SEL_PRODUCTS_LOOSE : selector :=
  [one [SAttrSub "class" "product"]].

(** ['a[href*="/product"], a[href*="/produs"], a.product-link'] *)
Definition SEL_LINK : selector :=
  [one [SType "a"; SAttrSub "href" "/product"];
   one [SType "a"; SAttrSub "href" "/produs"];
   one [SType "a"; SClass "product-link"]].

(** ['.product-name, .product-title, h2, h3, .title'] *)
Definition SEL_NAME : selector :=
  [one [SClass "product-name"]; one [SClass "product-title"];
   one [SType "h2"]; one [SType "h3"]; one [SClass "title"]].

(** ['.price, .product-price, [class*="price"]'] *)
Definition SEL_PRICE : selector :=
  [one [SClass "price"]; one [SClass "product-price"];
   one [SAttrSub "class" "price"]].

(** ['img'] *)
Definition SEL_IMG : selector := [one [SType "img"]].

(** ['a.next, a[rel="next"]'] *)
Definition SEL_NEXT : selector :=
  [one [SType "a"; SClass "next"]; one [SType "a"; SAttrEq "rel" "next"]].

(** ['.pagination a, .pager a, nav a, ul.page-numbers a'] *)
Definition SEL_PAGINATION : selector :=
  [under [SClass "pagination"] [SType "a"];
   under [SClass "pager"] [SType "a"];
   under [SType "nav"] [SType "a"];
   under [SType "ul"; SClass "page-numbers"] [SType "a"]].

(** ['.pagination a[href], .pager a[href], nav a[href],
     ul.page-numbers a[href]'] *)
Definition SEL_PAGINATION_HREF : selector :=
  [under [SClass "pagination"] [SType "a"; SAttr "href"];
   under [SClass "pager"] [SType "a"; SAttr "href"];
   under [SType "nav"] [SType "a"; SAttr "href"];
   under [SType "ul"; SClass "page-numbers"] [SType "a"; SAttr "href"]].

(** [['next', 'următorul', '›', '»', 'urmatorul', 'următor']] *)
Definition NEXT_LABELS : list string :=
  ["next"; "următorul"; "›"; "»"; "urmatorul"; "următor"].

Section scraper.
Context `{UrlChecks}.

Definition extract_product_id (product_url : string) : exc string :=
  parsed ← Urllib.urlparse product_url "";
  let path_parts :=
    Py.split "/" (Py.strip Py.is_slash (Urllib.path parsed)) in
  if match last path_parts with
     | Some seg => Py.isdigit seg
     | None => false
     end
  then Py.last_item path_parts
  else
    let query_params := Urllib.parse_qs (Urllib.query parsed) in
    if bool_decide (is_Some (Urllib.dict_get query_params "id"))
    then Urllib.first_value query_params "id"
    else Return product_url.

(** The link of a candidate: [select_one] with the product patterns, else
    the first anchor that has an [href]. *)
Definition locate_link (element : PageElement) : option PageElement :=
  match select_one element SEL_LINK with
  | Some l => Some l
  | None => find_with_attr element "a" "href"
  end.

(** The body of the [try] of [extract_products] for one candidate:
    [Return None] stands for the [continue] of a candidate without link. *)
Definition extract_one (element : PageElement) (base_url : string)
  : exc (option Product) :=
  let link_elem := locate_link element in
  match link_elem with
  | None => Return None
  | Some link_elem =>
      href ← getitem link_elem "href";
      product_url ← Urllib.urljoin base_url href;
      product_id ← extract_product_id product_url;
      let name_elem :=
        match select_one element SEL_NAME with
        | Some n => n
        | None => link_elem
        end in
      let product_name := get_text_strip name_elem in
      let price_elem := select_one element SEL_PRICE in
      let product_price :=
        match price_elem with
        | Some p => get_text_strip p
        | None => "N/A"
        end in
      let img_elem := select_one element SEL_IMG in
      image_url ←
        match img_elem with
        | Some img =>
            match get img "src" with
            | Some src =>
                if Py.is_empty src then Return None
                else Some <$> Urllib.urljoin base_url src
            | None => Return None
            end
        | None => Return None
        end;
      Return (Some {| id := product_id; name := product_name;
                      price := product_price; url := product_url;
                      image_url := image_url |})
  end.

(** The loop of [extract_products]: [except Exception: continue]. *)
Fixpoint extract_loop (product_elements : list PageElement)
  (base_url : string) (products : list Product) : list Product :=
  match product_elements with
  | [] => products
  | element :: rest =>
      match extract_one element base_url with
      | Return (Some product) =>
          extract_loop rest base_url (products ++ [product])
      | Return None => extract_loop rest base_url products
      | Raise _ => extract_loop rest base_url products
      end
  end.

Definition product_elements_of (soup : PageElement) : list PageElement :=
  let product_elements := select soup SEL_PRODUCTS in
  match product_elements with
  | [] => select soup SEL_PRODUCTS_LOOSE
  | _ => product_elements
  end.

Definition extract_products (soup : PageElement) (base_url : string)
  : list Product :=
  extract_loop (product_elements_of soup) base_url [].

Definition get_current_page_number (url : string) : exc Z :=
  match Re.search url with
  | Some m => Py.int (Re.m_digits m)
  | None =>
      parsed ← Urllib.urlparse url "";
      let params := Urllib.parse_qs (Urllib.query parsed) in
      if bool_decide (is_Some (Urllib.dict_get params "page"))
      then v ← Urllib.first_value params "page"; Py.int v
      else if bool_decide (is_Some (Urllib.dict_get params "pag"))
      then v ← Urllib.first_value params "pag"; Py.int v
      else Return 1%Z
  end.

(** The first loop of [find_next_page]: the first pagination anchor whose
    text is a label of "next". *)
Definition is_next_label (link : PageElement) : bool :=
  let link_text := Py.lower (get_text_strip link) in
  Urllib.mem link_text NEXT_LABELS.

Fixpoint find_label_link (pagination_links : list PageElement)
  : option PageElement :=
  match pagination_links with
  | [] => None
  | link :: rest =>
      if is_next_label link then Some link else find_label_link rest
  end.

(** The second loop: the first pagination anchor whose target is the page
    after [current_page]; [Return None] when the loop runs to its end. *)
Fixpoint find_numbered_link (page_links : list PageElement)
  (current_url : string) (current_page : Z) : exc (option string) :=
  match page_links with
  | [] => Return None
  | link :: rest =>
      let link_url := default "" (get link "href") in
      if Py.is_empty link_url
      then find_numbered_link rest current_url current_page
      else
        full_url ← Urllib.urljoin current_url link_url;
        link_page_num ← get_current_page_number full_url;
        if (link_page_num =? current_page + 1)%Z
        then Return (Some full_url)
        else find_numbered_link rest current_url current_page
  end.

(** The last part of [find_next_page]: the next URL made from the current
    one. *)
Definition make_next_url (current_url : string) (current_page : Z)
  : option string :=
  if bool_decide (is_Some (Re.search current_url))
  then Some (Re.sub ("/p" +:+ Py.str (current_page + 1)) current_url)
  else if (current_page =? 1)%Z && Py.contains "/produse-recente" current_url
  then
    let base := Py.rstrip Py.is_slash current_url in
    Some (base +:+ "/p2")
  else None.

Definition href_of (next_link : option PageElement) : option string :=
  match next_link with
  | Some l =>
      match get l "href" with
      | Some h => if Py.is_empty h then None else Some h
      | None => None
      end
  | None => None
  end.

Definition find_next_page (soup : PageElement) (current_url : string)
  : exc (option string) :=
  current_page ← get_current_page_number current_url;
  let next_link := select_one soup SEL_NEXT in
  let next_link :=
    match next_link with
    | Some l => Some l
    | None => find_label_link (select soup SEL_PAGINATION)
    end in
  numbered ←
    match next_link with
    | Some _ => Return None
    | None =>
        find_numbered_link (select soup SEL_PAGINATION_HREF) current_url
          current_page
    end;
  match numbered with
  | Some full_url => Return (Some full_url)
  | None =>
      match href_of next_link with
      | Some h => Some <$> Urllib.urljoin current_url h
      | None => Return (make_next_url current_url current_page)
      end
  end.

(** The network: what [fetch_page] gives for a URL, the parsed page or the
    exception of a failed request. *)
Variable fetch_page : string -> exc PageElement.

(** The state of the loop of [scrape_all_pages]. [visited] lists the URLs
    fetched, in order: its length is [page_count]. *)
Record Loop := {
  all_products : list Product;
  visited : list string
}.

(** [while current_url and page_count < 3], by the pages still allowed. *)
Fixpoint scrape_loop (pages_left : nat) (current_url : string) (st : Loop)
  : Loop :=
  match pages_left with
  | 0 => st
  | S pages_left' =>
      if Py.is_empty current_url then st
      else
        let st := {| all_products := all_products st;
                     visited := visited st ++ [current_url] |} in
        match fetch_page current_url with
        | Raise _ => st
        | Return soup =>
            let products := extract_products soup current_url in
            match products with
            | [] => st
            | _ =>
                let st := {| all_products := all_products st ++ products;
                             visited := visited st |} in
                match find_next_page soup current_url with
                | Raise _ => st
                | Return None => st
                | Return (Some next_url) =>
                    if Py.is_empty next_url || String.eqb next_url current_url
                    then st
                    else scrape_loop pages_left' next_url st
                end
            end
        end
  end.

Definition PAGE_LIMIT : nat := 3.

Definition scrape_from (start_url : string) : Loop :=
  scrape_loop PAGE_LIMIT start_url {| all_products := []; visited := [] |}.

Definition scrape_all_pages : list Product :=
  all_products (scrape_from Config.BASE_URL).

End scraper.

End BSGScraper.

(** ** [BotConfig] *)

Module BotConfig.

(** A JSON value as [json.load] gives it.  Numbers are the integers; an
    object is the list of its members, a key looked up from the front. *)
#[warnings="-register-all"]
Inductive json : Type :=
| JNull
| JBool (b : bool)
| JInt (z : Z)
| JStr (s : string)
| JArray (items : list json)
| JObject (members : list (string * json)).

(** The truth value of a JSON value, as [not x] reads it. *)
Definition truthy (v : json) : bool :=
  match v with
  | JNull => false
  | JBool b => b
  | JInt z => negb (z =? 0)%Z
  | JStr s => negb (Py.is_empty s)
  | JArray items => match items with [] => false | _ => true end
  | JObject members => match members with [] => false | _ => true end
  end.

(** [v == s] for a string literal [s]. *)
Definition eq_str (v : json) (s : string) : bool :=
  match v with
  | JStr t => String.eqb t s
  | _ => false
  end.

Fixpoint lookup (key : string) (members : list (string * json))
  : option json :=
  match members with
  | [] => None
  | (k, v) :: rest => if String.eqb key k then Some v else lookup key rest
  end.

(** The configuration file: absent, impossible to read ([IOError]), no
    JSON ([JSONDecodeError]), or holding a JSON value. *)
Inductive ConfigFile : Type :=
| Absent
| Unreadable
| Malformed
| Holds (value : json).

(** The attributes of [Config] that [load_config] sets. *)
Record Settings := {
  TELEGRAM_BOT_TOKEN : json;
  TELEGRAM_CHAT_ID : json;
  CHECK_INTERVAL : json
}.

Definition initial_settings : Settings :=
  {| TELEGRAM_BOT_TOKEN := JNull; TELEGRAM_CHAT_ID := JNull;
     CHECK_INTERVAL := JInt 300 |}.

(** How a call ends: it returns, the process exits through [sys.exit], or
    an exception no handler of the function catches leaves it. *)
Inductive uncaught : Type :=
| AttributeError
| OSError.

Inductive outcome (A : Type) : Type :=
| Returns (a : A)
| Exits (code : Z)
| Raises (e : uncaught).
Arguments Returns {A} a.
Arguments Exits {A} code.
Arguments Raises {A} e.

(** The template of [create_config_file]. *)
Definition template : json :=
  JObject [("telegram_bot_token", JStr "");
           ("telegram_chat_id", JStr "");
           ("check_interval_seconds", JInt 300);
           ("notifications_enabled", JBool true)].

(** [create_config_file]: writes the template; [writable] tells whether the
    file can be opened for writing. *)
Definition create_config_file (writable : bool) (file : ConfigFile)
  : outcome unit * ConfigFile :=
  if writable then (Returns (), Holds template)
  else (Raises OSError, file).

(** [config.get(key)] and [config.get(key, default)] on the loaded value:
    only an object has the method. *)
Definition get (config : json) (key : string) (default : json)
  : option json :=
  match config with
  | JObject members =>
      Some (match lookup key members with
            | Some v => v
            | None => default
            end)
  | _ => None
  end.

(** [load_config], with the file and the settings it leaves behind. *)
Definition load_config (writable : bool) (file : ConfigFile)
  (settings : Settings) : outcome json * ConfigFile * Settings :=
  match file with
  | Absent =>
      match create_config_file writable file with
      | (Returns _, file) => (Exits 0, file, settings)
      | (Exits code, file) => (Exits code, file, settings)
      | (Raises e, file) => (Raises e, file, settings)
      end
  | Unreadable => (Exits 1, file, settings)
  | Malformed => (Exits 1, file, settings)
  | Holds config =>
      match get config "telegram_bot_token" JNull with
      | None => (Raises AttributeError, file, settings)
      | Some token =>
          let settings :=
            {| TELEGRAM_BOT_TOKEN := token;
               TELEGRAM_CHAT_ID := TELEGRAM_CHAT_ID settings;
               CHECK_INTERVAL := CHECK_INTERVAL settings |} in
          match get config "telegram_chat_id" JNull with
          | None => (Raises AttributeError, file, settings)
          | Some chat_id =>
              let settings :=
                {| TELEGRAM_BOT_TOKEN := token;
                   TELEGRAM_CHAT_ID := chat_id;
                   CHECK_INTERVAL := CHECK_INTERVAL settings |} in
              match get config "check_interval_seconds" (JInt 300) with
              | None => (Raises AttributeError, file, settings)
              | Some interval =>
                  let settings :=
                    {| TELEGRAM_BOT_TOKEN := token;
                       TELEGRAM_CHAT_ID := chat_id;
                       CHECK_INTERVAL := interval |} in
                  if negb (truthy token) || eq_str token "YOUR_BOT_TOKEN_HERE"
                  then (Exits 1, file, settings)
                  else if negb (truthy chat_id) ||
                          eq_str chat_id "YOUR_CHAT_ID_HERE"
                  then (Exits 1, file, settings)
                  else (Returns config, file, settings)
              end
          end
      end
  end.

End BotConfig.

(** ** [run_single_check] and the loop of [run_continuous_monitoring] *)

Module Runner.

Import BSGScraper.

Section runner.
Context `{UrlChecks}.

(** The network towards Telegram and the clock, as for the notifier and
    the storage. *)
Variable delivered : nat -> bool.
Variable now : nat -> string.

(** What a run acts on: the products of the storage object, the number of
    readings of the clock, the texts posted, and what [save] was given to
    write, in order. *)
Record World := {
  storage : gmap string Stored;
  clock : nat;
  posted : TelegramNotifier.State;
  saved : list (gmap string Stored)
}.

(** A reading of [datetime.now()] for a line of the console. *)
Definition stamp (w : World) : World :=
  {| storage := storage w; clock := S (clock w); posted := posted w;
     saved := saved w |}.

(** [[p for p in current_products if p['id'] not in known_ids]] *)
Definition new_products_of (current_products : list Product)
  (known_ids : gset string) : list Product :=
  filter (fun p => id p ∉ known_ids) current_products.

(** [storage.add_products(new_products)] then [storage.save()]. *)
Definition add_and_save (new_products : list Product) (w : World) : World :=
  let '(products, clock) :=
    ProductStorage.add_products now new_products (storage w) (clock w) in
  {| storage := products; clock := clock; posted := posted w;
     saved := saved w ++ [products] |}.

(** [run_single_check], from the storage as loaded: the new products are
    listed on the console and stored. *)
Definition run_single_check (fetch_page : string -> exc Bs4.PageElement)
  (w : World) : World :=
  let w := stamp w in
  let known_ids := ProductStorage.get_known_ids (storage w) in
  let current_products := scrape_all_pages fetch_page in
  match current_products with
  | [] => w
  | _ =>
      let new_products := new_products_of current_products known_ids in
      match new_products with
      | [] => w
      | _ => add_and_save new_products w
      end
  end.

(** One pass of the loop of [run_continuous_monitoring]: the site is what
    it serves during the pass. *)
Definition check_once (fetch_page : string -> exc Bs4.PageElement)
  (w : World) : World :=
  let w := stamp w in
  let current_products := scrape_all_pages fetch_page in
  match current_products with
  | [] => w
  | _ =>
      let known_ids := ProductStorage.get_known_ids (storage w) in
      let new_products := new_products_of current_products known_ids in
      match new_products with
      | [] => w
      | _ =>
          let '(_, posted) :=
            TelegramNotifier.send_product_notification delivered new_products
              (posted w) in
          add_and_save new_products
            {| storage := storage w; clock := clock w; posted := posted;
               saved := saved w |}
      end
  end.

End runner.

End Runner.

(* ===================================================================== *)
(** * The vocabulary of the properties                                    *)
(* ===================================================================== *)

Section vocabulary.

Import Py Urllib Re Bs4 BSGScraper.

(** Every key of a dictionary of [parse_qs] has a first value, and no value
    is blank. *)
Definition values_ok (d : dict) : Prop :=
  Forall (fun kv => kv.2 <> [] /\ Forall (fun v => v <> "") kv.2) d.

(** A selector list whose every subject names the element type [n]. *)
Definition selects_type (n : string) (sel : selector) : bool :=
  forallb (fun c => existsb (fun s => match s with
                                      | SType n' => String.eqb n' n
                                      | _ => false
                                      end) (subject c)) sel.

(** The first product of a list that has a given id. *)
Definition first_with_id (k : string) (products : list Product)
  : option Product :=
  head (filter (fun p => id p = k) products).

Section with_checks.
Context `{UrlChecks}.


(** The product a candidate contributes: none when it has no link and none
    when its processing raises. *)
Definition completed (base_url : string) (element : PageElement)
  : option Product :=
  match extract_one element base_url with
  | Return (Some product) => Some product
  | Return None => None
  | Raise _ => None
  end.







Section driver.
Variable fetch_page : string -> exc PageElement.

(** What one visit adds to the accumulator. *)
Definition page_products (current_url : string) : list Product :=
  match fetch_page current_url with
  | Return soup => extract_products soup current_url
  | Raise _ => []
  end.

(** The terminal conditions at a fetched URL: the fetch failed, the page
    gave no product, no next URL was resolved (none found, or the resolver
    raised), or the next URL is the current one. *)
Definition stops_at (current_url : string) : Prop :=
  match fetch_page current_url with
  | Raise _ => True
  | Return soup =>
      extract_products soup current_url = [] \/
      match find_next_page soup current_url with
      | Raise _ => True
      | Return None => True
      | Return (Some next_url) => next_url = "" \/ next_url = current_url
      end
  end.

(** The one way on: the page was fetched, gave products, and the resolver
    found another URL. *)
Definition moves_to (current_url next_url : string) : Prop :=
  exists soup,
    fetch_page current_url = Return soup /\
    extract_products soup current_url <> [] /\
    find_next_page soup current_url = Return (Some next_url) /\
    next_url <> "" /\ next_url <> current_url.

(** The runs of the state machine [Fetching -> Extracting -> Resolving]:
    [Run n url vs] when, with [n] pages still allowed and [url] next in
    line, the URLs fetched are [vs]. *)
Inductive Run : nat -> string -> list string -> Prop :=
| run_limit (url : string) : Run 0 url []
| run_no_url (n : nat) : Run n "" []
| run_stop (n : nat) (url : string) :
    url <> "" -> stops_at url -> Run (S n) url [url]
| run_step (n : nat) (url next_url : string) (vs : list string) :
    url <> "" -> moves_to url next_url -> Run n next_url vs ->
    Run (S n) url (url :: vs).

End driver.

End with_checks.

End vocabulary.

(* ===================================================================== *)
(** * Worked examples: pages, sites and stores                            *)
(* ===================================================================== *)

Section examples.

Import Py Urllib Re Bs4 BSGScraper.

(** The verdict used by the worked examples: a host of ASCII characters
    without brackets passes, as it does in the library.  The examples use
    no other host. *)
Definition plain_hosts : UrlChecks := fun netloc =>
  negb (Py.mem_char "[" netloc) && negb (Py.mem_char "]" netloc) &&
  Py.forallb_str (fun c => (Py.ord c <? 128)%N) netloc.

(** A page whose "next" anchor points at the page itself. *)
Definition self_link_page : PageElement :=
  Tag "[document]" []
    [Tag "a" [("class", "next"); ("href", "http://x/list/p2")]
       [NavigableString "Next"]].


(** A listing page with five candidates: a full card, a card whose anchor
    has no text and whose image has no source, a card without anchor, a
    card whose only anchor has no [href], and a card linked by a query. *)
Definition catalogue_page : PageElement :=
  Tag "[document]" []
    [Tag "html" []
       [Tag "body" []
          [Tag "div" [("class", "product-item")]
             [Tag "a" [("href", "/product/101")] [NavigableString " Widget "];
              Tag "span" [("class", "price")] [NavigableString "10 lei"];
              Tag "img" [("src", "/i/1.png")] []];
           Tag "div" [("class", "product-item")]
             [Tag "a" [("href", "/produs/102")] [];
              Tag "img" [] []];
           Tag "div" [("class", "product-item")]
             [Tag "h2" [] [NavigableString "no link"]];
           Tag "div" [("class", "product-item")]
             [Tag "a" [("class", "product-link")] [NavigableString "X"]];
           Tag "div" [("class", "product-item sale")]
             [Tag "a" [("href", "?id=7")] [NavigableString "Q"]]]]].


(** A listing page with one product card and no pagination markup. *)
Definition single_card (n : string) : PageElement :=
  Tag "[document]" []
    [Tag "div" [("class", "product")]
       [Tag "a" [("href", "/product/" +:+ n)] [NavigableString "Item"]]].

(** A site of five pages: the base listing page and [/p2] to [/p5]. *)
Definition five_page_site (current_url : string) : exc PageElement :=
  if String.eqb current_url Config.BASE_URL then Return (single_card "1")
  else if String.eqb current_url (Config.BASE_URL +:+ "/p2")
  then Return (single_card "2")
  else if String.eqb current_url (Config.BASE_URL +:+ "/p3")
  then Return (single_card "3")
  else if String.eqb current_url (Config.BASE_URL +:+ "/p4")
  then Return (single_card "4")
  else if String.eqb current_url (Config.BASE_URL +:+ "/p5")
  then Return (single_card "5")
  else Raise RequestException.

(** A product record, a store that knows product [101], and a clock. *)
Definition card (k : string) : Product :=
  {| id := k; name := "Item " +:+ k; price := "N/A";
     url := "http://x/product/" +:+ k; image_url := None |}.

Definition known_101 : gmap string Stored :=
  {[ "101" := {| fields := card "101"; first_seen := "2024-01-01T00:00:00" |} ]}.

Definition tick (k : nat) : string :=
  "2025-06-01T00:00:0" +:+ Py.str (Z.of_nat k).

End examples.

(* ===================================================================== *)
(** * Further vocabulary                                                  *)
(* ===================================================================== *)

Section more_vocabulary.

Import Py Urllib Re Bs4 BSGScraper.

(** The ids of a list of products. *)
Definition ids_of (products : list Product) : gset string :=
  list_to_set (id <$> products).



(** A site of one page that lists the products [1] and [2]. *)
Definition two_card_page : PageElement :=
  Tag "[document]" []
    [Tag "div" [("class", "product")]
       [Tag "a" [("href", "/product/1")] [NavigableString "One"]];
     Tag "div" [("class", "product")]
       [Tag "a" [("href", "/product/2")] [NavigableString "Two"]]].

Definition one_page_site (current_url : string) : exc PageElement :=
  if String.eqb current_url Config.BASE_URL then Return two_card_page
  else Raise RequestException.

End more_vocabulary.

(** A fact about one character, by the 256 cases. *)
Ltac by_cases_on_char c :=
  destruct c as [[] [] [] [] [] [] [] []]; try discriminate; try reflexivity.

(* ===================================================================== *)
(** * The library models on small inputs                                 *)
(* ===================================================================== *)

Example py_int_examples :
  map Py.int [" 12 "; "1_000"; "+5"; "-5"; "abc"; ""; "0x1"; "1__0"; "_1";
              "1_"; "- 5"; "+-5"; "00012"; "-0"]
  = [Return 12%Z; Return 1000%Z; Return 5%Z; Return (-5)%Z; Raise ValueError;
     Raise ValueError; Raise ValueError; Raise ValueError; Raise ValueError;
     Raise ValueError; Raise ValueError; Raise ValueError; Return 12%Z;
     Return 0%Z].
Proof. vm_compute. reflexivity. Qed.

Example py_split_examples :
  Py.split "/" (Py.strip Py.is_slash "a//b/") = ["a"; ""; "b"] /\
  Py.split "/" "" = [""] /\
  Py.split "/" (Py.strip Py.is_slash "/") = [""] /\
  Py.str 120 = "120" /\ Py.str 0 = "0" /\ Py.str (-7) = "-7".
Proof. vm_compute. repeat split. Qed.

Example re_examples :
  (Re.m_digits <$> Re.search ("a/p2" +:+ Py.nl)) = Some "2" /\
  Re.sub "/pX" ("a/p2/" +:+ Py.nl) = "a/pX" +:+ Py.nl /\
  Re.search "a/p2//" = None /\
  Re.sub "/pX" "/p12/p3" = "/p12/pX" /\
  Re.search ("a/p2" +:+ Py.nl +:+ Py.nl) = None.
Proof. vm_compute. repeat split. Qed.

(* ===================================================================== *)
(** * Facts about strings                                                 *)
(* ===================================================================== *)

Module PyFacts.

Import Py.

#[local] Arguments String.append !_ _ / : simpl nomatch.

Lemma append_empty_r (s : string) : s +:+ "" = s.
Proof. induction s as [|c s IH]; simpl; [done | by rewrite IH]. Qed.

Lemma append_assoc (a b c : string) : (a +:+ b) +:+ c = a +:+ b +:+ c.
Proof. induction a as [|x a IH]; simpl; [done | by rewrite IH]. Qed.

Lemma length_append (a b : string) :
  String.length (a +:+ b) = String.length a + String.length b.
Proof. induction a as [|x a IH]; simpl; [done | by rewrite IH]. Qed.


Lemma is_empty_true (s : string) : is_empty s = true <-> s = "".
Proof. destruct s; simpl; split; congruence. Qed.

Lemma is_empty_false (s : string) : is_empty s = false <-> s <> "".
Proof. destruct s; simpl; split; congruence. Qed.

(** Cancelling a common suffix. *)
Lemma append_inv_tail (a b t : string) : a +:+ t = b +:+ t -> a = b.
Proof.
  revert b. induction a as [|x a IH]; intros [|y b] Heq; simpl in *.
  - done.
  - apply (f_equal String.length) in Heq. simpl in Heq.
    rewrite length_append in Heq. lia.
  - apply (f_equal String.length) in Heq. simpl in Heq.
    rewrite length_append in Heq. lia.
  - injection Heq as -> Heq. f_equal. by apply IH.
Qed.

Lemma forallb_str_append (p : ascii -> bool) (a b : string) :
  forallb_str p (a +:+ b) = forallb_str p a && forallb_str p b.
Proof.
  induction a as [|x a IH]; simpl; [done|].
  by rewrite IH, andb_assoc.
Qed.

(** ** Strings that hold no character of a class *)

Section avoid.
Variables p q : ascii -> bool.
Hypothesis disjoint : forall c, q c = true -> p c = false.

Lemma lstrip_avoid (s : string) : forallb_str q s = true -> lstrip p s = s.
Proof.
  destruct s as [|c s]; simpl; [done|].
  intros [Hc _]%andb_prop. by rewrite (disjoint _ Hc).
Qed.

Lemma rstrip_avoid (s : string) : forallb_str q s = true -> rstrip p s = s.
Proof.
  induction s as [|c s IH]; simpl; [done|].
  intros [Hc Hs]%andb_prop. rewrite (IH Hs), (disjoint _ Hc).
  by destruct s.
Qed.

Lemma strip_avoid (s : string) : forallb_str q s = true -> strip p s = s.
Proof.
  intros Hs. unfold strip. rewrite (lstrip_avoid _ Hs). by apply rstrip_avoid.
Qed.

Lemma filter_str_avoid (s : string) :
  forallb_str q s = true -> filter_str (fun c => negb (p c)) s = s.
Proof.
  induction s as [|c s IH]; simpl; [done|].
  intros [Hc Hs]%andb_prop. by rewrite (disjoint _ Hc), (IH Hs).
Qed.

End avoid.

Section avoid_char.
Variable q : ascii -> bool.
Variable sep : ascii.
Hypothesis avoid : forall c, q c = true -> Ascii.eqb c sep = false.

Lemma partition_avoid (s : string) :
  forallb_str q s = true -> partition sep s = None.
Proof.
  induction s as [|c s IH]; simpl; [done|].
  intros [Hc Hs]%andb_prop. by rewrite (avoid _ Hc), (IH Hs).
Qed.

Lemma split_avoid (s : string) :
  forallb_str q s = true -> split sep s = [s].
Proof.
  induction s as [|c s IH]; simpl; [done|].
  intros [Hc Hs]%andb_prop. by rewrite (avoid _ Hc), (IH Hs).
Qed.

Lemma mem_char_avoid (s : string) :
  forallb_str q s = true -> mem_char sep s = false.
Proof.
  induction s as [|c s IH]; simpl; [done|].
  intros [Hc Hs]%andb_prop. rewrite (IH Hs), orb_false_r.
  rewrite Ascii.eqb_sym. by apply avoid.
Qed.

End avoid_char.

(** ** Digits *)

Lemma digit_not_char (d c : ascii) :
  isdigit_char c = false -> isdigit_char d = true -> Ascii.eqb d c = false.
Proof.
  intros Hc Hd. destruct (Ascii.eqb_spec d c) as [->|]; [congruence | done].
Qed.

Lemma digit_not_space (c : ascii) :
  isdigit_char c = true -> isspace_char c = false.
Proof. by_cases_on_char c. Qed.

Lemma digit_not_underscore (c : ascii) :
  isdigit_char c = true -> is_underscore c = false.
Proof. by_cases_on_char c. Qed.

Lemma digit_not_slash (c : ascii) :
  isdigit_char c = true -> is_slash c = false.
Proof. by_cases_on_char c. Qed.

Lemma isdigit_nonempty (s : string) : isdigit s = true -> s <> "".
Proof. by destruct s. Qed.

Lemma isdigit_forallb (s : string) :
  isdigit s = true -> forallb_str isdigit_char s = true.
Proof. unfold isdigit. by intros [_ ?]%andb_prop. Qed.

Lemma string_of_uint_digits (d : Decimal.uint) :
  forallb_str isdigit_char (NilEmpty.string_of_uint d) = true.
Proof. induction d; simpl; auto. Qed.

Lemma to_uint_nonnil (n : N) : N.to_uint n <> Decimal.Nil.
Proof.
  destruct n as [|p]; simpl; [discriminate|].
  apply DecimalPos.Unsigned.to_uint_nonnil.
Qed.

Lemma str_of_N_isdigit (n : N) : isdigit (str_of_N n) = true.
Proof.
  unfold isdigit, str_of_N. rewrite string_of_uint_digits, andb_true_r.
  pose proof (to_uint_nonnil n) as Hn.
  by destruct (N.to_uint n).
Qed.

(** Reading back what [str] printed. *)
Lemma int_of_digits_str (n : N) : int_of_digits (str_of_N n) = Some n.
Proof.
  unfold int_of_digits. rewrite str_of_N_isdigit.
  unfold str_of_N. rewrite NilEmpty.usu. simpl.
  by rewrite DecimalN.Unsigned.of_to.
Qed.

Lemma int_of_digits_total (s : string) :
  isdigit s = true -> exists n, int_of_digits s = Some n.
Proof.
  intros Hs. unfold int_of_digits. rewrite Hs.
  apply isdigit_forallb in Hs.
  assert (exists d, NilEmpty.uint_of_string s = Some d) as [d ->];
    [|by eexists].
  clear -Hs. induction s as [|c s IH]; simpl; [by eexists|].
  apply andb_prop in Hs as [Hc Hs]. destruct (IH Hs) as [d ->].
  revert Hc. by_cases_on_char c; intros _; by eexists.
Qed.

(** [int] on a run of digits is the value of the digits. *)
Lemma int_digits (s : string) :
  isdigit s = true ->
  exists n, int_of_digits s = Some n /\ int s = Return (Z.of_N n).
Proof.
  intros Hs. destruct (int_of_digits_total s Hs) as [n Hn].
  exists n. split; [done|].
  pose proof (isdigit_forallb s Hs) as Hall.
  unfold int.
  rewrite (strip_avoid isspace_char isdigit_char digit_not_space s Hall).
  assert (int_of_literal s = Some n) as Hlit.
  { unfold int_of_literal.
    rewrite (split_avoid isdigit_char "_" digit_not_underscore s Hall).
    simpl. rewrite Hs. simpl.
    rewrite (filter_str_avoid is_underscore isdigit_char
               digit_not_underscore s Hall).
    done. }
  destruct s as [|c s]; [done|].
  assert (c <> "-"%char /\ c <> "+"%char) as [Hm Hp].
  { simpl in Hall. apply andb_prop in Hall as [Hc _].
    split; intros ->; discriminate. }
  assert ((match String c s with
           | String "-" r => (true, r)
           | String "+" r => (false, r)
           | _ => (false, String c s)
           end) = (false, String c s)) as ->.
  { revert Hm Hp. clear. by_cases_on_char c; congruence. }
  simpl. by rewrite Hlit.
Qed.

End PyFacts.

(* ===================================================================== *)
(** * The identity resolver: [extract_product_id]                         *)
(* ===================================================================== *)

Module IdentityFacts.

Import Py PyFacts Urllib BSGScraper.

#[local] Arguments String.append !_ _ / : simpl nomatch.

Lemma digit_not_c0 (c : ascii) :
  isdigit_char c = true -> is_c0_or_space c = false.
Proof. by_cases_on_char c. Qed.

Lemma digit_not_unsafe (c : ascii) :
  isdigit_char c = true -> is_unsafe c = false.
Proof. by_cases_on_char c. Qed.

Lemma digit_not_colon (c : ascii) :
  isdigit_char c = true -> Ascii.eqb c ":" = false.
Proof. by_cases_on_char c. Qed.

Lemma digit_not_hash (c : ascii) :
  isdigit_char c = true -> Ascii.eqb c "#" = false.
Proof. by_cases_on_char c. Qed.

Lemma digit_not_question (c : ascii) :
  isdigit_char c = true -> Ascii.eqb c "?" = false.
Proof. by_cases_on_char c. Qed.

Lemma digit_not_semicolon (c : ascii) :
  isdigit_char c = true -> Ascii.eqb c ";" = false.
Proof. by_cases_on_char c. Qed.

(** ** The last segment of a path *)







Section segment.
Variables p q : ascii -> bool.
Hypothesis disjoint : forall c, q c = true -> p c = false.


Lemma lstrip_append (a x : string) :
  x <> "" -> forallb_str q x = true -> lstrip p (a +:+ x) = lstrip p a +:+ x.
Proof.
  intros Hx Hq. induction a as [|c a IH]; simpl.
  - by apply (lstrip_avoid p q disjoint).
  - destruct (p c); [done | done].
Qed.

End segment.



(** ** The dictionary of [parse_qs] *)

Lemma dict_append_ok (d : dict) (k v : string) :
  values_ok d -> v <> "" -> values_ok (dict_append d k v).
Proof.
  intros Hd Hv. induction Hd as [|[k' vs] d [Hne Hvs] Hd IH]; simpl.
  - repeat constructor; done.
  - destruct (String.eqb k k'); constructor; simpl; try done.
    split; [by destruct vs|]. apply Forall_app. by repeat constructor.
Qed.

Lemma unquote_nonempty (s : string) : s <> "" -> unquote s <> "".
Proof.
  destruct s as [|c s]; [done|]. intros _. simpl.
  destruct (Ascii.eqb c "%"); [|done].
  destruct s as [|a [|b r]]; try done.
  by destruct (hex_val a), (hex_val b).
Qed.

Lemma plus_to_space_nonempty (s : string) : s <> "" -> plus_to_space s <> "".
Proof. by destruct s. Qed.

Lemma parse_qsl_values (qs : string) :
  Forall (fun nv => nv.2 <> "") (parse_qsl qs).
Proof.
  unfold parse_qsl. destruct (is_empty qs); [constructor|].
  induction (split "&" qs) as [|f l IH]; simpl; [constructor|].
  unfold parse_field at 1.
  destruct (partition "=" f) as [[n v]|]; [|done].
  destruct (is_empty v) eqn:Hv; [done|]. constructor; [|done].
  simpl. apply unquote_nonempty, plus_to_space_nonempty.
  by apply is_empty_false.
Qed.

Lemma parse_qs_ok (qs : string) : values_ok (parse_qs qs).
Proof.
  unfold parse_qs.
  assert (values_ok []) as Hnil by constructor.
  revert Hnil. generalize (@nil (string * list string)).
  induction (parse_qsl_values qs) as [|[n v] l Hv _ IH]; intros d Hd; simpl.
  - done.
  - apply IH. by apply dict_append_ok.
Qed.

Lemma dict_get_ok (d : dict) (k : string) (vs : list string) :
  values_ok d -> dict_get d k = Some vs ->
  exists v rest, vs = v :: rest /\ v <> "" /\ first_value d k = Return v.
Proof.
  intros Hd Hget. unfold first_value. rewrite Hget.
  assert (vs <> [] /\ Forall (fun v => v <> "") vs) as [Hne Hall].
  { clear -Hd Hget. induction Hd as [|[k' vs'] d Hkv _ IH]; simpl in *.
    - done.
    - destruct (String.eqb k k'); [|by apply IH].
      injection Hget as <-. done. }
  destruct vs as [|v rest]; [done|].
  exists v, rest. by inversion Hall.
Qed.

Section identity.
Context `{UrlChecks}.

(** A run of digits is a URL that is all path. *)
Lemma urlparse_digits (s : string) :
  isdigit s = true ->
  urlparse s "" =
    Return {| scheme := ""; netloc := ""; path := s; params := "";
              query := ""; fragment := "" |}.
Proof.
  intros Hs. pose proof (isdigit_forallb s Hs) as Hall.
  assert (urlsplit s "" =
            Return {| s_scheme := ""; s_netloc := ""; s_path := s;
                      s_query := ""; s_fragment := "" |}) as Hsplit.
  { unfold urlsplit.
    rewrite (lstrip_avoid is_c0_or_space isdigit_char digit_not_c0 s Hall).
    rewrite (filter_str_avoid is_unsafe isdigit_char digit_not_unsafe s Hall).
    unfold split_scheme.
    rewrite (partition_avoid isdigit_char ":" digit_not_colon s Hall).
    assert ((match s with
             | String "/" (String "/" r) =>
                 let '(netloc, rest) :=
                   Re.span (fun c => negb (is_netloc_delim c)) r in
                 if xorb (mem_char "[" netloc) (mem_char "]" netloc)
                 then Raise ValueError
                 else if netloc_ok netloc then Return (netloc, rest)
                 else Raise ValueError
             | _ => Return ("", s)
             end) = Return ("", s)) as ->.
    { destruct s as [|c s]; [done|]. simpl in Hall.
      apply andb_prop in Hall as [Hc _]. revert Hc. clear.
      by_cases_on_char c. }
    simpl.
    rewrite (partition_avoid isdigit_char "#" digit_not_hash s Hall).
    rewrite (partition_avoid isdigit_char "?" digit_not_question s Hall).
    done. }
  unfold urlparse. rewrite Hsplit. simpl.
  change (Ascii.eqb ";" ";" || mem_char ";" "")%char with true.
  by rewrite (mem_char_avoid isdigit_char ";" digit_not_semicolon s Hall).
Qed.

Lemma extract_product_id_digits (s : string) :
  isdigit s = true -> extract_product_id s = Return s.
Proof.
  intros Hs. pose proof (isdigit_forallb s Hs) as Hall.
  unfold extract_product_id. rewrite (urlparse_digits s Hs). simpl.
  rewrite (strip_avoid is_slash isdigit_char digit_not_slash s Hall).
  rewrite (split_avoid isdigit_char "/" digit_not_slash s Hall).
  simpl. by rewrite Hs.
Qed.

End identity.

End IdentityFacts.

(* ===================================================================== *)
(** * The page number of a URL                                            *)
(* ===================================================================== *)

Module ReFacts.

Import Py PyFacts Re.

#[local] Arguments String.append !_ _ / : simpl nomatch.

Lemma span_spec (p : ascii -> bool) (s a b : string) :
  span p s = (a, b) -> s = a +:+ b /\ forallb_str p a = true.
Proof.
  revert a b. induction s as [|c s IH]; simpl; intros a b Hsp.
  - by injection Hsp as <- <-.
  - destruct (p c) eqn:Hc.
    + destruct (span p s) as [a' b']. injection Hsp as <- <-.
      destruct (IH a' b' eq_refl) as [-> Ha]. simpl. by rewrite Hc.
    + by injection Hsp as <- <-.
Qed.

Lemma at_end_cases (s : string) : at_end s = true -> s = "" \/ s = nl.
Proof.
  unfold at_end. intros [Hs|Hs]%orb_prop; apply String.eqb_eq in Hs; auto.
Qed.

Lemma not_slash_branch {A} (c : ascii) (x y : A) :
  c <> "/"%char -> match c with "/"%char => x | _ => y end = y.
Proof. by_cases_on_char c. congruence. Qed.

Lemma match_here_spec (s ds sl rest : string) :
  match_here s = Some (ds, sl, rest) ->
  s = "/p" +:+ ds +:+ sl +:+ rest /\ isdigit ds = true /\
  (sl = "" \/ sl = "/") /\ (rest = "" \/ rest = nl).
Proof.
  unfold match_here.
  destruct s as [|c0 s]; [done|].
  destruct s as [|c1 r]; [by destruct c0 as [[] [] [] [] [] [] [] []]|].
  destruct (Ascii.eqb_spec c0 "/") as [->|Hc0];
    [|by destruct c0 as [[] [] [] [] [] [] [] []]].
  destruct (Ascii.eqb_spec c1 "p") as [->|Hc1];
    [|by destruct c1 as [[] [] [] [] [] [] [] []]].
  destruct (span isdigit_char r) as [ds' rest'] eqn:Hsp.
  apply span_spec in Hsp as [-> Hds].
  destruct (is_empty ds') eqn:Hne; [done|].
  assert (isdigit ds' = true) as Hdigit by (unfold isdigit; by rewrite Hne, Hds).
  intros Hm.
  assert ((exists r', rest' = String "/" r' /\ at_end r' = true /\
             ds = ds' /\ sl = "/" /\ rest = r') \/
          (at_end rest' = true /\ ds = ds' /\ sl = "" /\ rest = rest'))
    as [(r' & -> & Hend & -> & -> & ->)|(Hend & -> & -> & ->)].
  { destruct rest' as [|c r'].
    - right. simpl in Hm. by injection Hm as <- <- <-.
    - destruct (Ascii.eqb_spec c "/") as [->|Hc].
      + left. exists r'. destruct (at_end r') eqn:Hend; [|done].
        by injection Hm as <- <- <-.
      + right.
        rewrite (not_slash_branch c) in Hm by done.
        destruct (at_end (String c r')) eqn:Hend; [|done].
        by injection Hm as <- <- <-. }
  - repeat split; auto using at_end_cases.
  - repeat split; auto using at_end_cases.
Qed.

(** What a match of the page pattern says of the text. *)
Lemma search_spec (s : string) (m : Match) :
  search s = Some m ->
  s = m_before m +:+ "/p" +:+ m_digits m +:+ m_slash m +:+ m_after m /\
  isdigit (m_digits m) = true /\
  (m_slash m = "" \/ m_slash m = "/") /\ (m_after m = "" \/ m_after m = nl).
Proof.
  revert m. induction s as [|c s IH]; intros m Hm.
  - simpl in Hm. done.
  - cbn [search] in Hm.
    destruct (match_here (String c s)) as [[[ds sl] rest]|] eqn:Hhere.
    + injection Hm as <-. simpl. by apply match_here_spec.
    + destruct (search s) as [m'|]; [|done]. injection Hm as <-.
      destruct (IH m' eq_refl) as (Hs & ? & ? & ?). simpl.
      split; [by rewrite Hs at 1 | done].
Qed.

End ReFacts.

(* ===================================================================== *)
(** * Properties of the program                                           *)
(* ===================================================================== *)

Section identity_claims.

Import Py PyFacts Urllib BSGScraper IdentityFacts.



(** C8. The identity resolver gives a run of digits back unchanged, so that
    resolving a numeric identity again changes nothing. *)
Theorem extract_product_id_idempotent (checks : UrlChecks) :
  (forall s, isdigit s = true -> extract_product_id s = Return s) /\
  (forall u r, extract_product_id u = Return r -> isdigit r = true ->
     extract_product_id r = Return r).
Proof.
  split.
  - apply extract_product_id_digits.
  - intros u r _ Hr. by apply extract_product_id_digits.
Qed.

(** The identity [123] of a product URL is its own identity. *)
Lemma extract_product_id_idempotent_witness :
  @extract_product_id plain_hosts "http://x/shop/123/?id=5" = Return "123" /\
  @extract_product_id plain_hosts "123" = Return "123".
Proof.
  split.
  - vm_compute. reflexivity.
  - refine (proj2 (extract_product_id_idempotent plain_hosts)
              "http://x/shop/123/?id=5" "123" _ _).
    + vm_compute. reflexivity.
    + reflexivity.
Defined.

End identity_claims.

Section page_number_claims.

Import Py PyFacts Urllib Re ReFacts BSGScraper IdentityFacts.




End page_number_claims.

(* ===================================================================== *)
(** * The pagination resolver: [find_next_page]                           *)
(* ===================================================================== *)

Module NextPageFacts.

Import Py PyFacts Urllib Re ReFacts Bs4 BSGScraper IdentityFacts.

#[local] Arguments String.append !_ _ / : simpl nomatch.

Lemma str_nonneg (z : Z) : (0 <= z)%Z -> str z = str_of_N (Z.to_N z).
Proof. destruct z; [done | done | lia]. Qed.

(** What [rstrip] removes is a run of the stripped class. *)
Lemma rstrip_prefix (p : ascii -> bool) (s : string) :
  exists rest, s = rstrip p s +:+ rest /\ forallb_str p rest = true.
Proof.
  induction s as [|c s (rest & Hs & Hrest)]; simpl; [by exists ""|].
  destruct (rstrip p s) as [|c' r] eqn:Hr.
  - destruct (p c) eqn:Hc.
    + exists (String c s). simpl in Hs. rewrite <- Hs in Hrest.
      simpl. by rewrite Hc, Hrest.
    + exists rest. simpl in Hs. by subst s.
  - exists rest. simpl in *. by rewrite <- Hs.
Qed.

Lemma select_descendant (el x : PageElement) (sel : selector) :
  x ∈ select el sel -> x ∈ descendants el.
Proof.
  unfold select, descendants.
  intros (y & -> & Hy%list_elem_of_filter)%list_elem_of_fmap.
  apply list_elem_of_fmap. exists y. by destruct Hy.
Qed.

Lemma select_one_elem (el x : PageElement) (sel : selector) :
  select_one el sel = Some x -> x ∈ select el sel.
Proof.
  unfold select_one. intros Hx.
  destruct (select el sel); simplify_eq/=. by left.
Qed.

Lemma select_type (n : string) (el x : PageElement) (sel : selector) :
  selects_type n sel = true -> x ∈ select el sel -> name_of x = n.
Proof.
  intros Hsel. unfold select.
  intros ([anc y] & -> & [Hy _]%list_elem_of_filter)%list_elem_of_fmap.
  simpl. unfold matches in Hy. simpl in Hy.
  apply existsb_exists in Hy as (c & Hc & Hm).
  unfold selects_type in Hsel. rewrite forallb_forall in Hsel.
  specialize (Hsel c Hc). apply existsb_exists in Hsel as (s & Hs & Hty).
  destruct s as [n'| | | |]; try done. apply String.eqb_eq in Hty as ->.
  unfold matches_complex, matches_compound in Hm.
  apply andb_prop in Hm as [Hm _]. apply andb_prop in Hm as [_ Hm].
  rewrite forallb_forall in Hm. specialize (Hm _ Hs). simpl in Hm.
  by apply String.eqb_eq in Hm.
Qed.

Lemma find_label_link_elem (links : list PageElement) (l : PageElement) :
  find_label_link links = Some l -> l ∈ links /\ is_next_label l = true.
Proof.
  induction links as [|x links IH]; simpl; [done|].
  destruct (is_next_label x) eqn:Hx.
  - intros [= <-]. split; [by left | done].
  - intros [? ?]%IH. split; [by right | done].
Qed.

Lemma href_of_spec (next_link : option PageElement) (h : string) :
  href_of next_link = Some h ->
  exists l, next_link = Some l /\ get l "href" = Some h /\ h <> "".
Proof.
  unfold href_of. destruct next_link as [l|]; [|done].
  destruct (get l "href") as [h'|] eqn:Hget; [|done].
  destruct (is_empty h') eqn:Hh; [done|]. intros [= <-].
  exists l. by rewrite <- is_empty_false.
Qed.

Section next_page.
Context `{UrlChecks}.

Lemma find_numbered_link_spec (links : list PageElement) (url : string)
  (page : Z) (full : string) :
  find_numbered_link links url page = Return (Some full) ->
  exists link h, link ∈ links /\ get link "href" = Some h /\ h <> "" /\
    urljoin url h = Return full /\
    get_current_page_number full = Return (page + 1)%Z.
Proof.
  induction links as [|x links IH]; simpl; [done|].
  destruct (get x "href") as [h|] eqn:Hget; simpl.
  - destruct (is_empty h) eqn:Hh.
    + intros (link & h' & ? & ?)%IH. exists link, h'. split; [by right|done].
    + destruct (urljoin url h) as [full'|] eqn:Hjoin; simpl; [|done].
      destruct (get_current_page_number full') as [n|] eqn:Hn; simpl; [|done].
      destruct (n =? page + 1)%Z eqn:Heq.
      * intros [= <-]. exists x, h. apply Z.eqb_eq in Heq. subst n.
        rewrite <- is_empty_false. repeat split; try done. by left.
      * intros (link & h' & ? & ?)%IH. exists link, h'.
        split; [by right|done].
  - intros (link & h' & ? & ?)%IH. exists link, h'. split; [by right|done].
Qed.

(** The URL the resolver makes from the current one is never the current
    one. *)
Lemma make_next_url_differs (url : string) (page : Z) :
  get_current_page_number url = Return page ->
  make_next_url url page <> Some url.
Proof.
  intros Hpage. unfold make_next_url.
  destruct (search url) as [m|] eqn:Hm.
  - rewrite bool_decide_eq_true_2 by done. intros [= Hsub].
    unfold get_current_page_number in Hpage. rewrite Hm in Hpage.
    destruct (search_spec url m Hm) as (Hurl & Hdigits & Hslash & _).
    destruct (int_digits _ Hdigits) as (n & Hn & Hint).
    rewrite Hint in Hpage. injection Hpage as <-.
    unfold sub in Hsub. rewrite Hm in Hsub.
    rewrite str_nonneg in Hsub by lia.
    replace (Z.to_N (Z.of_N n + 1)) with (n + 1)%N in Hsub by lia.
    rewrite Hurl in Hsub.
    apply String.app_inj in Hsub. simpl in Hsub.
    injection Hsub as Hsub.
    rewrite <- (append_assoc (m_digits m)) in Hsub.
    apply append_inv_tail in Hsub.
    destruct Hslash as [Hsl|Hsl]; rewrite Hsl in Hsub.
    + rewrite append_empty_r in Hsub. rewrite <- Hsub in Hn.
      rewrite int_of_digits_str in Hn. injection Hn. lia.
    + pose proof (isdigit_forallb _ (str_of_N_isdigit (n + 1))) as Hall.
      rewrite Hsub, forallb_str_append in Hall. simpl in Hall.
      by rewrite andb_false_r in Hall.
  - rewrite bool_decide_eq_false_2 by (by intros [? ?]).
    destruct ((page =? 1)%Z && contains "/produse-recente" url); [|done].
    intros [= Heq].
    destruct (rstrip_prefix is_slash url) as (rest & Hurl & Hrest).
    rewrite Hurl in Heq at 2. apply String.app_inj in Heq.
    subst rest. vm_compute in Hrest. done.
Qed.

End next_page.

End NextPageFacts.

Section next_page_claims.

Import Py PyFacts Urllib Re ReFacts Bs4 BSGScraper NextPageFacts.

(** C2, as the claim states it, fails: the resolver returns the target of
    the "next" anchor, also when that is the current URL. *)
Lemma find_next_page_counterexample :
  @find_next_page plain_hosts self_link_page "http://x/list/p2"
  = Return (Some "http://x/list/p2").
Proof. vm_compute. reflexivity. Qed.

(** C2, amended.  When the resolver returns the current URL, that URL is the
    resolved target of an anchor of the document (the driver stops on it);
    a URL the resolver makes from the current one always differs from
    it. *)
Theorem find_next_page_same_url (checks : UrlChecks) (soup : PageElement)
  (current_url : string) :
  (find_next_page soup current_url = Return (Some current_url) ->
   exists link h, link ∈ descendants soup /\ name_of link = "a" /\
     get link "href" = Some h /\ h <> "" /\
     urljoin current_url h = Return current_url) /\
  (forall page, get_current_page_number current_url = Return page ->
     make_next_url current_url page <> Some current_url).
Proof.
  split; [|apply make_next_url_differs].
  unfold find_next_page.
  destruct (get_current_page_number current_url) as [page|] eqn:Hpage;
    simpl; [|done].
  pose proof (make_next_url_differs current_url page Hpage) as Hmake.
  set (next_link := match select_one soup SEL_NEXT with
                    | Some l => Some l
                    | None => find_label_link (select soup SEL_PAGINATION)
                    end).
  assert (forall l, next_link = Some l ->
            l ∈ descendants soup /\ name_of l = "a") as Hlink.
  { intros l. unfold next_link.
    destruct (select_one soup SEL_NEXT) as [l'|] eqn:Hone.
    - intros [= <-]. apply select_one_elem in Hone.
      split; [by eapply select_descendant|].
      by apply (select_type "a" soup l' SEL_NEXT).
    - intros [Hl _]%find_label_link_elem.
      split; [by eapply select_descendant|].
      by apply (select_type "a" soup l SEL_PAGINATION). }
  clearbody next_link.
  assert (match href_of next_link with
          | Some h => Some <$> urljoin current_url h
          | None => Return (make_next_url current_url page)
          end = Return (Some current_url) ->
          exists link h, link ∈ descendants soup /\ name_of link = "a" /\
            get link "href" = Some h /\ h <> "" /\
            urljoin current_url h = Return current_url) as Htail.
  { destruct (href_of next_link) as [h|] eqn:Hhref.
    - apply href_of_spec in Hhref as (l & Hl & Hget & Hne).
      destruct (Hlink l Hl) as [Hdesc Hname].
      destruct (urljoin current_url h) as [u|] eqn:Hjoin; [|done].
      intros [= ->]. by exists l, h.
    - intros [= Heq]. by destruct Hmake. }
  destruct next_link as [l|].
  - simpl. exact Htail.
  - destruct (find_numbered_link (select soup SEL_PAGINATION_HREF)
                current_url page) as [[full|]|] eqn:Hnum; simpl; [| |done].
    + intros [= ->].
      apply find_numbered_link_spec in Hnum
        as (link & h & Hlinks & Hget & Hne & Hjoin & _).
      exists link, h.
      repeat split; try done; [by eapply select_descendant|].
      by apply (select_type "a" soup link SEL_PAGINATION_HREF).
    + exact Htail.
Qed.

(** The self-linking page again: the anchor the theorem finds. *)
Lemma find_next_page_same_url_witness :
  exists link h, link ∈ descendants self_link_page /\ name_of link = "a" /\
    get link "href" = Some h /\ h <> "" /\
    @urljoin plain_hosts "http://x/list/p2" h = Return "http://x/list/p2".
Proof.
  apply (proj1 (find_next_page_same_url plain_hosts self_link_page
                  "http://x/list/p2")).
  vm_compute. reflexivity.
Defined.

End next_page_claims.

Section strategy_order_claims.

Import Py PyFacts Urllib Re ReFacts Bs4 BSGScraper NextPageFacts.




End strategy_order_claims.

(* ===================================================================== *)
(** * The extractor: [extract_products]                                   *)
(* ===================================================================== *)

Module ExtractorFacts.

Import Py PyFacts Urllib Bs4 BSGScraper IdentityFacts.

#[local] Arguments String.append !_ _ / : simpl nomatch.


Section extractor.
Context `{UrlChecks}.



(** The identity of a URL is empty only for the empty URL. *)
Lemma extract_product_id_nonempty (product_url i : string) :
  product_url <> "" -> extract_product_id product_url = Return i -> i <> "".
Proof.
  intros Hne. unfold extract_product_id.
  destruct (urlparse product_url "") as [parsed|]; simpl; [|done].
  destruct (last (split "/" (strip is_slash (path parsed)))) as [seg|]
    eqn:Hlast.
  - destruct (isdigit seg) eqn:Hseg.
    + unfold last_item. rewrite Hlast. intros [= <-].
      by apply isdigit_nonempty.
    + destruct (dict_get (parse_qs (query parsed)) "id") as [vs|] eqn:Hget.
      * rewrite bool_decide_eq_true_2 by done.
        destruct (dict_get_ok _ _ _ (parse_qs_ok (query parsed)) Hget)
          as (v & rest & -> & Hv & ->).
        by intros [= <-].
      * rewrite bool_decide_eq_false_2 by (by intros [? ?]).
        by intros [= <-].
  - destruct (dict_get (parse_qs (query parsed)) "id") as [vs|] eqn:Hget.
    + rewrite bool_decide_eq_true_2 by done.
      destruct (dict_get_ok _ _ _ (parse_qs_ok (query parsed)) Hget)
        as (v & rest & -> & Hv & ->).
      by intros [= <-].
    + rewrite bool_decide_eq_false_2 by (by intros [? ?]).
      by intros [= <-].
Qed.

Lemma extract_loop_omap (elements : list PageElement) (base_url : string)
  (products : list Product) :
  extract_loop elements base_url products
  = products ++ omap (completed base_url) elements.
Proof.
  revert products.
  induction elements as [|element rest IH]; intros products; simpl.
  - by rewrite app_nil_r.
  - unfold completed at 1.
    destruct (extract_one element base_url) as [[product|]|];
      rewrite IH; [|done..].
    by rewrite <- app_assoc.
Qed.

Lemma completed_no_link (base_url : string) (element : PageElement) :
  locate_link element = None -> completed base_url element = None.
Proof. intros Hl. unfold completed, extract_one. by rewrite Hl. Qed.

Lemma omap_length_filter {A B} (f : A -> option B) (l : list A) :
  length (omap f l) <= length (filter (fun x => is_Some (f x)) l).
Proof.
  induction l as [|x l IH]; simpl; [done|].
  destruct (f x) as [y|] eqn:Hx.
  - rewrite filter_cons_True by (by rewrite Hx). simpl.
    apply le_n_S, IH.
  - rewrite filter_cons_False; [done|]. rewrite Hx. by intros [? ?].
Qed.

End extractor.

End ExtractorFacts.

Section extractor_claims.

Import Py PyFacts Urllib Bs4 BSGScraper IdentityFacts ExtractorFacts.

(** C4. The extractor returns, for every document, the products of the
    candidates whose processing completes, in document order: a candidate
    whose processing raises is dropped and the loop goes on; a candidate
    without a locatable anchor gives nothing, so the output is no longer
    than the list of linkable candidates. *)
Theorem extract_products_never_raises (checks : UrlChecks)
  (soup : PageElement) (base_url : string) :
  extract_products soup base_url
    = omap (completed base_url) (product_elements_of soup) /\
  (forall element,
     locate_link element = None -> completed base_url element = None) /\
  (forall element e,
     extract_one element base_url = Raise e ->
     completed base_url element = None) /\
  length (extract_products soup base_url)
    <= length (filter (fun element => is_Some (locate_link element))
                 (product_elements_of soup)).
Proof.
  assert (extract_products soup base_url
          = omap (completed base_url) (product_elements_of soup)) as Heq.
  { unfold extract_products. by rewrite extract_loop_omap. }
  split; [exact Heq|]. split; [apply completed_no_link|]. split.
  { intros element e He. unfold completed. by rewrite He. }
  rewrite Heq. clear Heq.
  induction (product_elements_of soup) as [|element rest IH]; simpl; [done|].
  destruct (locate_link element) as [link|] eqn:Hlink.
  - rewrite filter_cons_True by (by rewrite Hlink). simpl.
    destruct (completed base_url element); simpl;
      [apply le_n_S, IH | apply le_S, IH].
  - rewrite filter_cons_False by (rewrite Hlink; by intros [? ?]).
    by rewrite completed_no_link.
Qed.

(** On the listing page: the third candidate has no link, the processing
    of the fourth raises [KeyError], and the fifth is still extracted. *)
Example extract_products_skips_failures :
  (fun element => @extract_one plain_hosts element "http://x/list")
    <$> product_elements_of catalogue_page !! 3
    = Some (Raise KeyError) /\
  id <$> @extract_products plain_hosts catalogue_page "http://x/list"
    = ["101"; "102"; "7"].
Proof. vm_compute. split; reflexivity. Qed.




End extractor_claims.

(* ===================================================================== *)
(** * The traversal driver: [scrape_all_pages]                            *)
(* ===================================================================== *)

Module DriverFacts.

Import Py PyFacts Urllib Bs4 BSGScraper.

Section driver.
Context `{UrlChecks}.
Variable fetch_page : string -> exc PageElement.

Lemma Run_length (n : nat) (url : string) (vs : list string) :
  Run fetch_page n url vs -> length vs <= n.
Proof. induction 1; simpl; lia. Qed.

Lemma scrape_loop_run (n : nat) (url : string) (st : Loop) :
  exists vs,
    Run fetch_page n url vs /\
    visited (scrape_loop fetch_page n url st) = visited st ++ vs /\
    all_products (scrape_loop fetch_page n url st)
      = all_products st ++ concat (page_products fetch_page <$> vs).
Proof.
  revert url st. induction n as [|n IH]; intros url st; simpl.
  { exists []. split; [constructor|]. by rewrite !app_nil_r. }
  destruct (is_empty url) eqn:Hurl.
  { apply is_empty_true in Hurl as ->. exists [].
    split; [constructor|]. by rewrite !app_nil_r. }
  apply is_empty_false in Hurl.
  destruct (fetch_page url) as [soup|e] eqn:Hfetch.
  2:{ exists [url]. split; [|split]; simpl.
      - apply run_stop; [done|]. unfold stops_at. by rewrite Hfetch.
      - done.
      - unfold page_products. rewrite Hfetch. by rewrite !app_nil_r. }
  destruct (extract_products soup url) as [|p ps] eqn:Hproducts.
  { exists [url]. split; [|split]; simpl.
    - apply run_stop; [done|]. unfold stops_at. rewrite Hfetch. by left.
    - done.
    - unfold page_products. rewrite Hfetch, Hproducts. by rewrite !app_nil_r. }
  assert (page_products fetch_page url = p :: ps) as Hpage.
  { unfold page_products. by rewrite Hfetch. }
  assert (stops_at fetch_page url ->
          exists vs,
            Run fetch_page (S n) url vs /\
            visited st ++ [url] = visited st ++ vs /\
            all_products st ++ p :: ps
              = all_products st ++ concat (page_products fetch_page <$> vs)) as Hstop.
  { intros Hs. exists [url]. split; [by apply run_stop|]. split; [done|].
    simpl. by rewrite Hpage, app_nil_r. }
  destruct (find_next_page soup url) as [[next_url|]|e] eqn:Hnext; simpl.
  - destruct (is_empty next_url) eqn:Hempty; simpl.
    { apply Hstop. unfold stops_at. rewrite Hfetch, Hnext.
      right. left. by apply is_empty_true. }
    destruct (String.eqb_spec next_url url) as [Hsame|Hother].
    { apply Hstop. unfold stops_at. rewrite Hfetch, Hnext. right. by right. }
    destruct (IH next_url
                {| all_products := all_products st ++ p :: ps;
                   visited := visited st ++ [url] |})
      as (vs & Hrun & Hvisited & Hall).
    exists (url :: vs). split; [|split].
    + eapply run_step; [done| |exact Hrun].
      exists soup. rewrite Hproducts.
      repeat split; try done. by apply is_empty_false.
    + rewrite Hvisited. simpl. by rewrite <- app_assoc.
    + rewrite Hall. simpl. rewrite Hpage. by rewrite <- app_assoc.
  - apply Hstop. unfold stops_at. rewrite Hfetch, Hnext. by right.
  - apply Hstop. unfold stops_at. rewrite Hfetch, Hnext. by right.
Qed.

End driver.

End DriverFacts.

Section driver_claims.

Import Py PyFacts Urllib Bs4 BSGScraper DriverFacts.

(** C7. For every site and start URL the driver returns; it fetches at most
    three pages, along a run of the state machine that ends at the first
    terminal condition or at the page limit, and it returns the products of
    the pages it fetched. *)
Theorem scrape_all_pages_bounded (checks : UrlChecks)
  (fetch_page : string -> exc PageElement) (start_url : string) :
  let r := scrape_from fetch_page start_url in
  Run fetch_page PAGE_LIMIT start_url (visited r) /\
  length (visited r) <= 3 /\
  all_products r = concat (page_products fetch_page <$> visited r).
Proof.
  intros r. unfold r, scrape_from.
  destruct (scrape_loop_run fetch_page PAGE_LIMIT start_url
              {| all_products := []; visited := [] |})
    as (vs & Hrun & Hvisited & Hall).
  rewrite Hvisited, Hall.
  change (visited {| all_products := []; visited := [] |} ++ vs) with vs.
  split; [done|]. split; [by apply (Run_length fetch_page _ start_url)|].
  done.
Qed.

(** On the five-page site the driver fetches the first three pages and
    returns their products. *)
Example scrape_five_page_site :
  visited (@scrape_from plain_hosts five_page_site Config.BASE_URL)
    = [Config.BASE_URL; Config.BASE_URL +:+ "/p2"; Config.BASE_URL +:+ "/p3"]
  /\ id <$> @scrape_all_pages plain_hosts five_page_site = ["1"; "2"; "3"].
Proof. vm_compute. split; reflexivity. Qed.

End driver_claims.

(* ===================================================================== *)
(** * Storage and notification                                            *)
(* ===================================================================== *)

Section storage_claims.

Import ProductStorage.

Variable now : nat -> string.

Lemma add_products_clock (products : list Product)
  (store : gmap string Stored) (clock : nat) :
  clock <= (add_products now products store clock).2.
Proof.
  revert store clock.
  induction products as [|p rest IH]; intros store clock; simpl; [done|].
  destruct (store !! id p).
  - apply IH.
  - etrans; [|apply IH]. lia.
Qed.

Lemma add_products_lookup (products : list Product)
  (store : gmap string Stored) (clock : nat) (k : string) :
  let store' := (add_products now products store clock).1 in
  let clock' := (add_products now products store clock).2 in
  match store !! k with
  | Some v => store' !! k = Some v
  | None =>
      match first_with_id k products with
      | Some p =>
          exists t, clock <= t < clock' /\
            store' !! k = Some {| fields := p; first_seen := now t |}
      | None => store' !! k = None
      end
  end.
Proof.
  revert store clock.
  induction products as [|p rest IH]; intros store clock; simpl.
  { by destruct (store !! k). }
  unfold first_with_id. simpl.
  destruct (store !! id p) as [w|] eqn:Hp.
  - specialize (IH store clock). simpl in IH.
    destruct (store !! k) as [v|] eqn:Hk; [done|].
    rewrite filter_cons_False by (intros ?; congruence).
    exact IH.
  - specialize (IH (<[id p := {| fields := p; first_seen := now clock |}]>
                      store) (S clock)).
    simpl in IH.
    pose proof (add_products_clock rest
                  (<[id p := {| fields := p; first_seen := now clock |}]>
                     store) (S clock)) as Hclock.
    destruct (decide (id p = k)) as [Heq|Hne].
    + subst k. rewrite Hp. rewrite lookup_insert_eq in IH.
      rewrite filter_cons_True by done. simpl.
      exists clock. split; [lia | done].
    + rewrite lookup_insert_ne in IH by done.
      destruct (store !! k) as [v|] eqn:Hk; [done|].
      rewrite filter_cons_False by done.
      unfold first_with_id in IH.
      destruct (head (filter (fun p0 => id p0 = k) rest)) as [q|]; [|done].
      destruct IH as (t & Ht & Hlook). exists t. split; [lia | done].
Qed.

(** C9. Adding products leaves every stored entry as it is, its
    [first_seen] included; each id that was not stored gets the fields of
    the first product of the list that has it, with the reading of the
    clock at its insertion as [first_seen]; nothing else is added. *)
Theorem add_products_frame (products : list Product)
  (store : gmap string Stored) (clock : nat) :
  let store' := (add_products now products store clock).1 in
  let clock' := (add_products now products store clock).2 in
  (forall k v, store !! k = Some v -> store' !! k = Some v) /\
  (forall k p, store !! k = None -> first_with_id k products = Some p ->
     exists t, clock <= t < clock' /\
       store' !! k = Some {| fields := p; first_seen := now t |}) /\
  (forall k, store !! k = None -> first_with_id k products = None ->
     store' !! k = None).
Proof.
  intros store' clock'. repeat split.
  - intros k v Hk.
    pose proof (add_products_lookup products store clock k) as Hl.
    simpl in Hl. by rewrite Hk in Hl.
  - intros k p Hk Hfirst.
    pose proof (add_products_lookup products store clock k) as Hl.
    simpl in Hl. by rewrite Hk, Hfirst in Hl.
  - intros k Hk Hfirst.
    pose proof (add_products_lookup products store clock k) as Hl.
    simpl in Hl. by rewrite Hk, Hfirst in Hl.
Qed.

End storage_claims.

Section storage_scenario.

Import ProductStorage.

(** The scenario of the specification: [101] is known, the scrape yields
    [101], [102] and [103]. *)
Lemma add_products_frame_witness :
  (add_products tick [card "101"; card "102"; card "103"] known_101 0).1
    !! "101"
    = Some {| fields := card "101"; first_seen := "2024-01-01T00:00:00" |} /\
  exists t, 0 <= t < 2 /\
    (add_products tick [card "101"; card "102"; card "103"] known_101 0).1
      !! "103"
    = Some {| fields := card "103"; first_seen := tick t |}.
Proof.
  pose proof (add_products_frame tick
                [card "101"; card "102"; card "103"] known_101 0)
    as (Hkept & Hnew & _).
  split.
  - apply Hkept. vm_compute. reflexivity.
  - apply (Hnew "103" (card "103")); vm_compute; reflexivity.
Defined.

End storage_scenario.

Section notifier_claims.

Import TelegramNotifier.

(** C10. [send_product_notification] reports success without looking at any
    delivery in two cases: for the empty list it posts nothing and returns
    [True]; for a message above the threshold it posts the batches of five
    and returns [True], whatever became of the posts. *)
Theorem send_product_notification_reports_success (delivered : nat -> bool)
  (st : State) :
  send_product_notification delivered [] st = (true, st) /\
  (forall products,
     4000 < Py.len (format_message products) ->
     send_product_notification delivered products st
     = (true,
        st ++ map _format_batch_message
                (map (slice5 products) (range_by_5 (length products))))).
Proof.
  split; [done|]. intros products Hlen.
  unfold send_product_notification.
  destruct products as [|p rest] eqn:Hproducts.
  { vm_compute in Hlen. lia. }
  rewrite <- Hproducts in *.
  apply Nat.ltb_lt in Hlen. rewrite Hlen. f_equal.
  generalize (map (slice5 products) (range_by_5 (length products))).
  clear. intros batches. revert st.
  induction batches as [|batch rest IH]; intros st; simpl.
  - by rewrite app_nil_r.
  - rewrite IH. by rewrite <- app_assoc.
Qed.

(** Sixty products on a network that delivers nothing: twelve batches are
    posted, and the result is [True]. *)
Lemma send_product_notification_reports_success_witness :
  (send_product_notification (fun _ => false) (replicate 60 (card "7")) []).1
    = true /\
  length
    (send_product_notification (fun _ => false) (replicate 60 (card "7")) []).2
    = 12.
Proof.
  pose proof (proj2 (send_product_notification_reports_success
                       (fun _ => false) []) (replicate 60 (card "7")))
    as Hsend.
  rewrite Hsend.
  - split; [reflexivity|]. vm_compute. reflexivity.
  - vm_compute. lia.
Defined.

End notifier_claims.

(* ===================================================================== *)
(** * Further properties: the storage                                     *)
(* ===================================================================== *)

Section storage_more.

Import ProductStorage.

#[local] Set Warnings "-clear-no-such-hyp".

Variable now : nat -> string.

Lemma add_products_dom (products : list Product)
  (store : gmap string Stored) (clock : nat) :
  dom (add_products now products store clock).1 = dom store ∪ ids_of products.
Proof.
  unfold ids_of. revert store clock.
  induction products as [|p rest IH]; intros store clock; simpl.
  - set_solver.
  - destruct (store !! id p) as [v|] eqn:Hp; rewrite IH.
    + assert (id p ∈ dom store) by (apply elem_of_dom; eauto). set_solver.
    + rewrite dom_insert_L. set_solver.
Qed.

Lemma add_products_known (products : list Product)
  (store : gmap string Stored) (clock : nat) :
  ids_of products ⊆ dom store ->
  add_products now products store clock = (store, clock).
Proof.
  unfold ids_of.
  induction products as [|p rest IH]; simpl; intros Hknown; [done|].
  assert (id p ∈ dom store) as [v Hv]%elem_of_dom by set_solver.
  rewrite Hv. apply IH. set_solver.
Qed.

Lemma add_products_size (products : list Product)
  (store : gmap string Stored) (clock : nat) :
  size (add_products now products store clock).1 + clock
  = size store + (add_products now products store clock).2.
Proof.
  revert store clock.
  induction products as [|p rest IH]; intros store clock; simpl; [done|].
  destruct (store !! id p) as [v|] eqn:Hp; [apply IH|].
  pose proof (IH (<[id p := {| fields := p; first_seen := now clock |}]>
                    store) (S clock)) as Hrest.
  rewrite map_size_insert_None in Hrest by done. lia.
Qed.

(** X1. After [add_products] the known ids are the ids known before and
    the ids of the products given: nothing is forgotten, nothing else
    appears. *)
Theorem add_products_known_ids (products : list Product)
  (store : gmap string Stored) (clock : nat) :
  get_known_ids (add_products now products store clock).1
  = get_known_ids store ∪ ids_of products.
Proof. apply add_products_dom. Qed.

(** X2. Adding the same products a second time changes nothing: the store
    is the same and the clock is not read again, so no [first_seen] is
    renewed. *)
Theorem add_products_twice (products : list Product)
  (store : gmap string Stored) (clock : nat) :
  let once := add_products now products store clock in
  add_products now products once.1 once.2 = once.
Proof.
  intros once. rewrite add_products_known; [by destruct once|].
  unfold once. rewrite add_products_dom. set_solver.
Qed.

(** X3. The clock is read once for each entry that [add_products] adds:
    the store grows by the number of readings, and by no more than the
    length of the list. *)
Theorem add_products_growth (products : list Product)
  (store : gmap string Stored) (clock : nat) :
  let store' := (add_products now products store clock).1 in
  let clock' := (add_products now products store clock).2 in
  size store' = size store + (clock' - clock) /\
  clock <= clock' <= clock + length products.
Proof.
  intros store' clock'.
  pose proof (add_products_size products store clock) as Hsize.
  pose proof (add_products_clock now products store clock) as Hclock.
  fold store' clock' in Hsize, Hclock.
  assert (clock' <= clock + length products) as Hupper.
  { unfold clock'. clear. revert store clock.
    induction products as [|p rest IH]; intros store clock; simpl; [lia|].
    destruct (store !! id p).
    - etrans; [apply IH|]. lia.
    - etrans; [apply IH|]. lia. }
  lia.
Qed.

End storage_more.

(* ===================================================================== *)
(** * Further properties: the notifier                                    *)
(* ===================================================================== *)

Section notifier_more.

Import TelegramNotifier.

Lemma send_batches_posts (delivered : nat -> bool)
  (batches : list (list Product)) (st : State) :
  send_batches delivered batches st
  = st ++ map _format_batch_message batches.
Proof.
  revert st. induction batches as [|batch rest IH]; intros st; simpl.
  - by rewrite app_nil_r.
  - rewrite IH. by rewrite <- app_assoc.
Qed.

Lemma range_by_5_covers (n : nat) : n <= 5 * ((n + 4) / 5).
Proof.
  pose proof (Nat.div_mod_eq (n + 4) 5) as Hdiv.
  pose proof (Nat.mod_upper_bound (n + 4) 5) as Hmod. lia.
Qed.

Lemma range_by_5_below (n j : nat) : j < (n + 4) / 5 -> 5 * j < n.
Proof.
  intros Hj. pose proof (Nat.Div0.mul_div_le (n + 4) 5) as Hle. lia.
Qed.

(** Five at a time, [k] times, covers a list of at most [5 * k]
    elements. *)
Lemma slices_concat {A} (k : nat) (l : list A) :
  length l <= 5 * k ->
  concat (map (fun j => take 5 (drop (5 * j) l)) (seq 0 k)) = l.
Proof.
  revert l. induction k as [|k IH]; intros l Hlen.
  - destruct l; simpl in *; [done | lia].
  - cbn [seq map concat]. rewrite <- seq_shift, map_map.
    rewrite Nat.mul_0_r, drop_0.
    rewrite (map_ext _ (fun j => take 5 (drop (5 * j) (drop 5 l)))).
    + rewrite IH; [apply take_drop|]. rewrite length_drop. lia.
    + intros j. rewrite drop_drop. f_equal. f_equal. lia.
Qed.

(** X4. The batches of the long-message path split the list: put end to
    end they are the list of products, each holds between one and five of
    them, and there are [ceil(n / 5)] of them.  No product is left out and
    none is sent twice. *)
Theorem batches_split_products (products : list Product) :
  let batches := map (slice5 products) (range_by_5 (length products)) in
  concat batches = products /\
  Forall (fun batch => 1 <= length batch <= 5) batches /\
  length batches = (length products + 4) / 5.
Proof.
  intros batches. unfold batches, range_by_5, slice5. rewrite map_map.
  split; [|split].
  - apply slices_concat, range_by_5_covers.
  - apply Forall_forall. intros batch Hin.
    apply list_elem_of_In, in_map_iff in Hin as (j & <- & Hj%in_seq).
    pose proof (range_by_5_below (length products) j) as Hbelow.
    rewrite length_take, length_drop. lia.
  - by rewrite length_map, length_seq.
Qed.

(** X5. [send_product_notification] returns [False] in one case only: the
    list is not empty, the message is within the threshold, and the
    delivery of that one message failed.  It posts nothing for the empty
    list, one message within the threshold, and one message per batch
    above it. *)
Theorem send_product_notification_result (delivered : nat -> bool)
  (products : list Product) (st : State) :
  let r := send_product_notification delivered products st in
  (r.1 = false <->
     products <> [] /\ Py.len (format_message products) <= 4000 /\
     delivered (length st) = false) /\
  length r.2 =
    length st +
    match products with
    | [] => 0
    | _ => if 4000 <? Py.len (format_message products)
           then (length products + 4) / 5
           else 1
    end.
Proof.
  intros r. unfold r, send_product_notification.
  destruct products as [|p rest] eqn:Hproducts.
  { simpl. split; [|lia]. split; [done|]. by intros [? _]. }
  rewrite <- Hproducts.
  destruct (4000 <? Py.len (format_message products)) eqn:Hlen.
  - cbn [fst snd]. rewrite send_batches_posts.
    rewrite length_app, !length_map.
    unfold range_by_5. rewrite length_map, length_seq.
    split; [|done]. split; [done|].
    apply Nat.ltb_lt in Hlen. intros (_ & ? & _). lia.
  - unfold send_message. cbn [fst snd].
    apply Nat.ltb_ge in Hlen. rewrite length_app. simpl.
    split; [|done]. split.
    + intros Hd. subst products. done.
    + by intros (_ & _ & ?).
Qed.

Lemma send_product_notification_posts (delivered : nat -> bool)
  (products : list Product) (st : State) :
  products <> [] ->
  length st < length (send_product_notification delivered products st).2.
Proof.
  intros Hne. unfold send_product_notification.
  destruct products as [|p rest] eqn:Hproducts; [done|].
  rewrite <- Hproducts.
  destruct (4000 <? Py.len (format_message products)).
  - cbn [snd]. rewrite send_batches_posts, length_app, !length_map.
    unfold range_by_5. rewrite length_map, length_seq.
    assert (1 <= (length products + 4) / 5); [|lia].
    apply Nat.div_le_lower_bound; [lia|]. subst products. simpl. lia.
  - unfold send_message. cbn [snd]. rewrite length_app. simpl. lia.
Qed.

End notifier_more.

(* ===================================================================== *)
(** * Further properties: the scraper                                     *)
(* ===================================================================== *)

Module ResolverFacts.

Import Py PyFacts Urllib Re ReFacts Bs4 BSGScraper IdentityFacts
  NextPageFacts.

#[local] Arguments String.append !_ _ / : simpl nomatch.






Section resolver.
Context `{UrlChecks}.




End resolver.

End ResolverFacts.

Section resolver_more.

Import Py PyFacts Urllib Re ReFacts Bs4 BSGScraper NextPageFacts
  ResolverFacts.





End resolver_more.

Module CandidateFacts.

Import Py PyFacts Urllib Bs4 BSGScraper.

#[local] Arguments String.append !_ _ / : simpl nomatch.

Lemma startswith_append (sub a b : string) :
  startswith sub a = true -> startswith sub (a +:+ b) = true.
Proof.
  revert a. induction sub as [|c sub IH]; intros a; [by destruct a|].
  destruct a as [|x a]; simpl; [done|].
  intros [-> Ha]%andb_prop. simpl. by apply IH.
Qed.

Lemma contains_append_l (sub a b : string) :
  contains sub a = true -> contains sub (a +:+ b) = true.
Proof.
  induction a as [|x a IH]; simpl.
  - rewrite orb_false_r. intros Hs. destruct sub; [|done].
    by destruct b.
  - intros [Hs|Hc]%orb_prop.
    + pose proof (startswith_append sub (String x a) b Hs) as Hstart.
      simpl in Hstart. by rewrite Hstart.
    + rewrite (IH Hc). apply orb_true_r.
Qed.

Lemma contains_append_r (sub a b : string) :
  contains sub b = true -> contains sub (a +:+ b) = true.
Proof.
  intros Hb. induction a as [|x a IH]; simpl; [done|].
  rewrite IH. apply orb_true_r.
Qed.

Lemma contains_join (sub sep c : string) (l : list string) :
  Urllib.mem c l = true -> contains sub c = true ->
  contains sub (join sep l) = true.
Proof.
  intros Hmem Hc. induction l as [|x l IH]; [done|].
  simpl in Hmem. apply orb_prop in Hmem as [Hx|Hl].
  - apply String.eqb_eq in Hx as <-.
    destruct l as [|y l]; [done|].
    change (join sep (c :: y :: l)) with (c +:+ sep +:+ join sep (y :: l)).
    by apply contains_append_l.
  - destruct l as [|y l]; [done|].
    change (join sep (x :: y :: l)) with (x +:+ sep +:+ join sep (y :: l)).
    apply contains_append_r, contains_append_r. by apply IH.
Qed.

(** An element of a class that holds the text [product] has it in its
    [class] attribute. *)
Lemma class_is_loose (el : PageElement) (c : string) :
  matches_simple el (SClass c) = true -> contains "product" c = true ->
  matches_simple el (SAttrSub "class" "product") = true.
Proof.
  simpl. unfold get_classes, attr_text.
  destruct (get el "class") as [v|]; [|done].
  intros Hmem Hc. simpl. by apply (contains_join "product" " " c).
Qed.

Lemma strict_is_loose (x : list PageElement * PageElement) :
  matches SEL_PRODUCTS x = true -> matches SEL_PRODUCTS_LOOSE x = true.
Proof.
  destruct x as [anc el]. unfold matches. simpl.
  unfold matches_complex, matches_compound. simpl.
  rewrite !andb_true_r, !orb_false_r.
  intros Hstrict.
  assert (is_tag el = true /\
          exists c, Urllib.mem c (get_classes el) = true /\
                    contains "product" c = true) as [Htag (c & Hc & Hp)].
  { repeat match type of Hstrict with
           | (_ || _) = true => apply orb_prop in Hstrict as [Hstrict|Hstrict]
           end;
      repeat match type of Hstrict with
             | (_ && _) = true =>
                 let H1 := fresh in apply andb_prop in Hstrict as [H1 Hstrict]
             end;
      (split; [done|]); eexists; (split; [eassumption|reflexivity]). }
  rewrite Htag. simpl.
  by apply (class_is_loose el c).
Qed.

End CandidateFacts.

Section extractor_more.

Import Py PyFacts Urllib Bs4 BSGScraper IdentityFacts ExtractorFacts
  CandidateFacts.

(** X8. The candidates of the extractor are always elements whose [class]
    attribute holds the text [product], and there are none exactly when the
    document has no such element: the marked-up selectors only narrow the
    choice, they never add to it. *)
Theorem product_elements_are_loose (soup : PageElement) :
  (forall element, element ∈ product_elements_of soup ->
     element ∈ select soup SEL_PRODUCTS_LOOSE) /\
  (product_elements_of soup = [] <-> select soup SEL_PRODUCTS_LOOSE = []).
Proof.
  assert (forall element, element ∈ select soup SEL_PRODUCTS ->
            element ∈ select soup SEL_PRODUCTS_LOOSE) as Hsub.
  { intros element. unfold select.
    intros (y & -> & [Hy Hin]%list_elem_of_filter)%list_elem_of_fmap.
    apply list_elem_of_fmap. exists y. split; [done|].
    apply list_elem_of_filter. split; [|done]. by apply strict_is_loose. }
  unfold product_elements_of.
  destruct (select soup SEL_PRODUCTS) as [|x l] eqn:Hstrict.
  - split; [done|]. done.
  - split; [exact Hsub|]. split; [done|]. intros Hloose.
    assert (x ∈ select soup SEL_PRODUCTS_LOOSE) as Hx
      by (apply Hsub; by left).
    rewrite Hloose in Hx. by apply elem_of_nil in Hx.
Qed.

(** X9. The identity of a URL is never empty: for every URL but the empty
    one, what [extract_product_id] returns is a non-empty text. *)
Theorem product_id_never_empty (checks : UrlChecks)
  (product_url product_id : string) :
  product_url <> "" ->
  extract_product_id product_url = Return product_id ->
  product_id <> "".
Proof. apply extract_product_id_nonempty. Qed.

(** A query whose [id] is given twice, the first time blank. *)
Lemma product_id_never_empty_witness :
  exists product_id,
    @extract_product_id plain_hosts "http://x/shop?id=&id=9"
      = Return product_id /\
    product_id <> "".
Proof.
  exists "9". split; [vm_compute; reflexivity|].
  apply (product_id_never_empty plain_hosts "http://x/shop?id=&id=9" "9").
  - discriminate.
  - vm_compute. reflexivity.
Defined.

End extractor_more.

Module TraversalFacts.

Import Py PyFacts Urllib Bs4 BSGScraper DriverFacts.

Section traversal.
Context `{UrlChecks}.
Variable fetch_page : string -> exc PageElement.

Lemma Run_head (n : nat) (url : string) (vs : list string) :
  Run fetch_page n url vs ->
  vs = [] \/ exists rest, vs = url :: rest /\ url <> "".
Proof. destruct 1; eauto. Qed.

Lemma Run_chain (n : nat) (url : string) (vs : list string) :
  Run fetch_page n url vs ->
  forall i u v, vs !! i = Some u -> vs !! S i = Some v ->
    moves_to fetch_page u v.
Proof.
  induction 1 as [| | |n url next_url vs Hurl Hmove Hrun IH];
    intros i u v Hu Hv; try done.
  destruct i as [|i]; simpl in *.
  - injection Hu as <-.
    destruct (Run_head _ _ _ Hrun) as [->|(rest & -> & _)]; [done|].
    simpl in Hv. by injection Hv as <-.
  - by eapply IH.
Qed.

Lemma Run_nonempty (n : nat) (url : string) (vs : list string) :
  Run fetch_page n url vs -> Forall (fun u => u <> "") vs.
Proof. induction 1; repeat constructor; done. Qed.

Lemma Run_products (n : nat) (url : string) (vs : list string) :
  Run fetch_page n url vs ->
  length vs <= S (length (concat (page_products fetch_page <$> vs))).
Proof.
  induction 1 as [| | |n url next_url vs Hurl Hmove Hrun IH];
    [simpl; lia..|].
  change (S (length vs)
          <= S (length (page_products fetch_page url
                        ++ concat (page_products fetch_page <$> vs)))).
  rewrite length_app.
  destruct Hmove as (soup & Hfetch & Hproducts & _).
  unfold page_products at 1. rewrite Hfetch.
  destruct (extract_products soup url) as [|p ps]; [done|].
  rewrite length_cons. lia.
Qed.

End traversal.

End TraversalFacts.

Section driver_more.

Import Py PyFacts Urllib Bs4 BSGScraper DriverFacts TraversalFacts.

(** X10. Every page the driver fetches, the last one apart, gave at least
    one product, so the pages fetched are at most one more than the
    products returned (an empty result means at most one fetch); the
    driver never fetches the empty URL, never fetches the same URL twice
    in a row, and starts at the start URL. *)
Theorem scrape_pages_and_products (checks : UrlChecks)
  (fetch_page : string -> exc PageElement) (start_url : string) :
  let r := scrape_from fetch_page start_url in
  length (visited r) <= S (length (all_products r)) /\
  Forall (fun u => u <> "") (visited r) /\
  (forall i u v, visited r !! i = Some u -> visited r !! S i = Some v ->
     u <> v) /\
  (start_url <> "" -> head (visited r) = Some start_url).
Proof.
  intros r. unfold r, scrape_from.
  destruct (scrape_loop_run fetch_page PAGE_LIMIT start_url
              {| all_products := []; visited := [] |})
    as (vs & Hrun & Hvisited & Hall).
  rewrite Hvisited, Hall.
  change (visited {| all_products := []; visited := [] |} ++ vs) with vs.
  change (all_products {| all_products := []; visited := [] |}
          ++ concat (page_products fetch_page <$> vs))
    with (concat (page_products fetch_page <$> vs)).
  split; [by eapply Run_products|]. split; [by eapply Run_nonempty|].
  split.
  - intros i u v Hu Hv.
    destruct (Run_chain fetch_page _ _ _ Hrun i u v Hu Hv)
      as (_ & _ & _ & _ & _ & Hne).
    congruence.
  - intros Hstart. unfold PAGE_LIMIT in Hrun.
    inversion Hrun; subst; done.
Qed.

End driver_more.

(* ===================================================================== *)
(** * Further properties: a run of the tracker                            *)
(* ===================================================================== *)

Module RunnerFacts.

Import Runner.

#[local] Set Warnings "-clear-no-such-hyp".

Lemma new_products_ids (current_products : list Product)
  (known_ids : gset string) :
  known_ids ∪ ids_of (new_products_of current_products known_ids)
  = known_ids ∪ ids_of current_products.
Proof.
  unfold ids_of, new_products_of.
  induction current_products as [|p rest IH]; [done|].
  destruct (decide (id p ∈ known_ids)) as [Hin|Hout].
  - rewrite filter_cons_False by (by intros ?). set_solver.
  - rewrite filter_cons_True by done. set_solver.
Qed.

Lemma new_products_none (current_products : list Product)
  (known_ids : gset string) :
  ids_of current_products ⊆ known_ids ->
  new_products_of current_products known_ids = [].
Proof.
  unfold ids_of, new_products_of.
  induction current_products as [|p rest IH]; [done|]. intros Hknown.
  rewrite filter_cons_False by (intros ?; set_solver).
  apply IH. set_solver.
Qed.

Lemma new_products_all_known (current_products : list Product)
  (known_ids : gset string) :
  new_products_of current_products known_ids = [] ->
  ids_of current_products ⊆ known_ids.
Proof.
  intros Hnone.
  pose proof (new_products_ids current_products known_ids) as Hids.
  rewrite Hnone in Hids. unfold ids_of in *. set_solver.
Qed.

Section runner.
Context `{UrlChecks}.
Variable delivered : nat -> bool.
Variable now : nat -> string.

(** What a pass does, by the products that are new to the storage. *)
Lemma check_once_cases (fetch_page : string -> exc Bs4.PageElement)
  (w : World) :
  let current_products := BSGScraper.scrape_all_pages fetch_page in
  let new_products :=
    new_products_of current_products
      (ProductStorage.get_known_ids (storage w)) in
  let w' := check_once delivered now fetch_page w in
  (new_products = [] /\ w' = stamp w) \/
  (new_products <> [] /\
   storage w' = (ProductStorage.add_products now new_products (storage w)
                   (S (clock w))).1 /\
   clock w' = (ProductStorage.add_products now new_products (storage w)
                 (S (clock w))).2 /\
   posted w' = (TelegramNotifier.send_product_notification delivered
                  new_products (posted w)).2 /\
   saved w' = saved w ++ [storage w']).
Proof.
  intros current_products new_products w'.
  subst current_products new_products w'. unfold check_once.
  change (storage (stamp w)) with (storage w).
  destruct (BSGScraper.scrape_all_pages fetch_page) as [|p ps] eqn:Hcurrent.
  { by left. }
  destruct (new_products_of (p :: ps)
              (ProductStorage.get_known_ids (storage w)))
    as [|q qs] eqn:Hnew; [by left|]. right.
  split; [done|].
  destruct (TelegramNotifier.send_product_notification delivered (q :: qs)
              (posted w)) as [ok posts] eqn:Hsend.
  unfold add_and_save, stamp. cbn [storage clock posted saved snd].
  destruct (ProductStorage.add_products now (q :: qs) (storage w)
              (S (clock w))).
  by rewrite ?Hsend.
Qed.

Lemma run_single_check_cases (fetch_page : string -> exc Bs4.PageElement)
  (w : World) :
  let current_products := BSGScraper.scrape_all_pages fetch_page in
  let new_products :=
    new_products_of current_products
      (ProductStorage.get_known_ids (storage w)) in
  let w' := run_single_check now fetch_page w in
  (new_products = [] /\ w' = stamp w) \/
  (new_products <> [] /\
   storage w' = (ProductStorage.add_products now new_products (storage w)
                   (S (clock w))).1 /\
   clock w' = (ProductStorage.add_products now new_products (storage w)
                 (S (clock w))).2 /\
   posted w' = posted w /\
   saved w' = saved w ++ [storage w']).
Proof.
  intros current_products new_products w'.
  subst current_products new_products w'. unfold run_single_check.
  change (storage (stamp w)) with (storage w).
  destruct (BSGScraper.scrape_all_pages fetch_page) as [|p ps] eqn:Hcurrent.
  { by left. }
  destruct (new_products_of (p :: ps)
              (ProductStorage.get_known_ids (storage w)))
    as [|q qs] eqn:Hnew; [by left|]. right.
  split; [done|].
  unfold add_and_save, stamp. cbn [storage clock posted saved].
  by destruct (ProductStorage.add_products now (q :: qs) (storage w)
                 (S (clock w))).
Qed.

End runner.

End RunnerFacts.

Section runner_more.

Import Runner RunnerFacts.

#[local] Set Warnings "-clear-no-such-hyp".

(** X11. After a pass of the monitoring loop every product the scrape
    returned is known, and what was known stays as it was stored -- whether
    or not the notification was delivered: the known ids are those known
    before and those of the scraped products. *)
Theorem check_once_known_ids (checks : UrlChecks) (delivered : nat -> bool)
  (now : nat -> string) (fetch_page : string -> exc Bs4.PageElement)
  (w : World) :
  let w' := check_once delivered now fetch_page w in
  ProductStorage.get_known_ids (storage w')
  = ProductStorage.get_known_ids (storage w)
    ∪ ids_of (BSGScraper.scrape_all_pages fetch_page) /\
  (forall k v, storage w !! k = Some v -> storage w' !! k = Some v).
Proof.
  intros w'. subst w'. unfold ProductStorage.get_known_ids.
  destruct (check_once_cases delivered now fetch_page w)
    as [[Hnone ->]|(Hnew & Hs & _)].
  - apply new_products_all_known in Hnone.
    unfold ProductStorage.get_known_ids in Hnone.
    change (storage (stamp w)) with (storage w). split; [set_solver|done].
  - rewrite Hs. split.
    + rewrite add_products_dom. apply new_products_ids.
    + intros k v Hk.
      pose proof (add_products_lookup now
                    (new_products_of (BSGScraper.scrape_all_pages fetch_page)
                       (dom (storage w)))
                    (storage w) (S (clock w)) k) as Hl.
      simpl in Hl. by rewrite Hk in Hl.
Qed.

(** X12. A second pass over the same site announces nothing: it posts no
    message, stores nothing and saves nothing; only the clock is read once
    more for the console. *)
Theorem check_once_again (checks : UrlChecks) (delivered : nat -> bool)
  (now : nat -> string) (fetch_page : string -> exc Bs4.PageElement)
  (w : World) :
  let w1 := check_once delivered now fetch_page w in
  check_once delivered now fetch_page w1 = stamp w1.
Proof.
  intros w1.
  destruct (check_once_cases delivered now fetch_page w1)
    as [[_ Heq]|(Hnew & _)]; [exact Heq|].
  exfalso. apply Hnew. apply new_products_none.
  unfold ProductStorage.get_known_ids. subst w1.
  destruct (check_once_cases delivered now fetch_page w)
    as [[Hnone Hw]|(_ & Hs & _)].
  - rewrite Hw. change (storage (stamp w)) with (storage w).
    by apply new_products_all_known in Hnone.
  - rewrite Hs, add_products_dom.
    pose proof (new_products_ids (BSGScraper.scrape_all_pages fetch_page)
                  (dom (storage w))) as Hids.
    unfold ProductStorage.get_known_ids. set_solver.
Qed.

(** X13. A pass rewrites the storage file and posts to Telegram in the
    same passes only, those in which the store grows; it then saves the
    grown store.  Otherwise store, file and channel are left alone. *)
Theorem check_once_effects (checks : UrlChecks) (delivered : nat -> bool)
  (now : nat -> string) (fetch_page : string -> exc Bs4.PageElement)
  (w : World) :
  let w' := check_once delivered now fetch_page w in
  (storage w' = storage w /\ saved w' = saved w /\ posted w' = posted w) \/
  (size (storage w) < size (storage w') /\
   saved w' = saved w ++ [storage w'] /\
   length (posted w) < length (posted w')).
Proof.
  intros w'. subst w'.
  destruct (check_once_cases delivered now fetch_page w)
    as [[_ ->]|(Hnew & Hs & _ & Hp & Hsv)]; [by left|].
  right. split; [|split; [done|]].
  - rewrite Hs.
    set (new_products :=
           new_products_of (BSGScraper.scrape_all_pages fetch_page)
             (ProductStorage.get_known_ids (storage w))) in *.
    pose proof (add_products_size now new_products (storage w) (S (clock w)))
      as Hsize.
    assert (S (clock w)
            < (ProductStorage.add_products now new_products (storage w)
                 (S (clock w))).2) as Hclock.
    { destruct new_products as [|p rest] eqn:Hlist; [done|].
      assert (storage w !! id p = None) as Hfresh.
      { assert (p ∈ new_products) as Hin by (rewrite Hlist; by left).
        unfold new_products, new_products_of in Hin.
        apply list_elem_of_filter in Hin as [Hout _].
        unfold ProductStorage.get_known_ids in Hout.
        by apply not_elem_of_dom in Hout. }
      simpl. rewrite Hfresh.
      pose proof (add_products_clock now rest
                    (<[id p := {| fields := p;
                                  first_seen := now (S (clock w)) |}]>
                       (storage w)) (S (S (clock w)))).
      lia. }
    lia.
  - rewrite Hp.
    pose proof (send_product_notification_posts delivered
                  (new_products_of (BSGScraper.scrape_all_pages fetch_page)
                     (ProductStorage.get_known_ids (storage w)))
                  (posted w) Hnew).
    lia.
Qed.

(** X14. [run_single_check] stores and saves exactly what a pass of the
    monitoring loop does, and posts nothing to Telegram. *)
Theorem run_single_check_like_pass (checks : UrlChecks)
  (delivered : nat -> bool) (now : nat -> string)
  (fetch_page : string -> exc Bs4.PageElement) (w : World) :
  let single := run_single_check now fetch_page w in
  let pass := check_once delivered now fetch_page w in
  storage single = storage pass /\ clock single = clock pass /\
  saved single = saved pass /\ posted single = posted w.
Proof.
  intros single pass. subst single pass.
  destruct (check_once_cases delivered now fetch_page w)
    as [[Hnone Hw]|(Hnew & Hs & Hc & _ & Hsv)];
    destruct (run_single_check_cases now fetch_page w)
      as [[Hnone' Hw']|(Hnew' & Hs' & Hc' & Hp' & Hsv')]; try done.
  - by rewrite Hw, Hw'.
  - by rewrite Hs, Hs', Hc, Hc', Hsv, Hsv', Hs, Hs', Hp'.
Qed.

(** A first pass over the one-page site, from an empty store: both
    products are stored, one message is posted and the store is saved
    once. *)
Example check_once_one_page_site :
  let w' :=
    @check_once plain_hosts (fun _ => false) tick one_page_site
      {| storage := ∅; clock := 0; posted := []; saved := [] |} in
  first_seen <$> storage w' !! "1" = Some (tick 1) /\
  first_seen <$> storage w' !! "2" = Some (tick 2) /\
  length (posted w') = 1 /\ length (saved w') = 1 /\ clock w' = 3.
Proof. vm_compute. repeat split. Qed.

End runner_more.

(* ===================================================================== *)
(** * Further properties: the configuration                               *)
(* ===================================================================== *)

Section config_more.

Import BotConfig.

(** X15. [load_config] returns only with credentials in hand: the file
    holds a JSON object whose [telegram_bot_token] and [telegram_chat_id]
    are present, true as Python reads them and not the placeholder texts,
    and the settings then carry them, with 300 for a missing
    [check_interval_seconds].  A first start without file writes the
    template and exits with 0, and the template itself is refused at the
    next start, with exit code 1. *)
Theorem load_config_needs_credentials (writable : bool) (file : ConfigFile)
  (settings : Settings) :
  (forall config file' settings',
     load_config writable file settings
       = (Returns config, file', settings') ->
     file = Holds config /\ file' = file /\
     exists members token chat_id,
       config = JObject members /\
       lookup "telegram_bot_token" members = Some token /\
       truthy token = true /\ eq_str token "YOUR_BOT_TOKEN_HERE" = false /\
       lookup "telegram_chat_id" members = Some chat_id /\
       truthy chat_id = true /\ eq_str chat_id "YOUR_CHAT_ID_HERE" = false /\
       settings' =
         {| TELEGRAM_BOT_TOKEN := token; TELEGRAM_CHAT_ID := chat_id;
            CHECK_INTERVAL :=
              default (JInt 300) (lookup "check_interval_seconds" members) |})
  /\
  (load_config true Absent settings = (Exits 0, Holds template, settings) /\
   (load_config writable (Holds template) settings).1.1 = Exits 1).
Proof.
  split; [|by split].
  intros config file' settings'. unfold load_config.
  destruct file as [| | |loaded]; [by destruct writable | done | done |].
  destruct loaded as [| | | | |members]; try done.
  unfold get.
  destruct (lookup "telegram_bot_token" members) as [token|] eqn:Htoken;
    [|done].
  destruct (truthy token) eqn:Htruthy; [|done].
  destruct (eq_str token "YOUR_BOT_TOKEN_HERE") eqn:Hplace; [done|].
  destruct (lookup "telegram_chat_id" members) as [chat_id|] eqn:Hchat;
    [|done].
  destruct (truthy chat_id) eqn:Htruthy'; [|done].
  destruct (eq_str chat_id "YOUR_CHAT_ID_HERE") eqn:Hplace'; [done|].
  simpl. intros [= <- <- <-].
  split; [done|]. split; [done|].
  exists members, token, chat_id.
  repeat split; done.
Qed.

(** A file with credentials and no interval. *)
Lemma load_config_needs_credentials_witness :
  exists members token chat_id,
    JObject [("telegram_bot_token", JStr "123:abc");
             ("telegram_chat_id", JInt 42)] = JObject members /\
    lookup "telegram_bot_token" members = Some token /\
    truthy token = true /\ eq_str token "YOUR_BOT_TOKEN_HERE" = false /\
    lookup "telegram_chat_id" members = Some chat_id /\
    truthy chat_id = true /\ eq_str chat_id "YOUR_CHAT_ID_HERE" = false /\
    {| TELEGRAM_BOT_TOKEN := JStr "123:abc"; TELEGRAM_CHAT_ID := JInt 42;
       CHECK_INTERVAL := JInt 300 |} =
      {| TELEGRAM_BOT_TOKEN := token; TELEGRAM_CHAT_ID := chat_id;
         CHECK_INTERVAL :=
           default (JInt 300) (lookup "check_interval_seconds" members) |}.
Proof.
  apply (proj1 (load_config_needs_credentials true
                  (Holds (JObject [("telegram_bot_token", JStr "123:abc");
                                   ("telegram_chat_id", JInt 42)]))
                  initial_settings)
           _ _ _ eq_refl).
Defined.

End config_more.
